(** * RisWidget renderer: a shallow embedding of Renderer.cpp

    The renderer owns the GPU handles of the image viewer, receives requests
    from the caller's thread ([updateView], [showImage],
    [setHistogramBinCount]) and executes them later, on its own thread, as
    queued slot invocations ([updateViewSlot], [newImageSlot],
    [setHistogramBinCountSlot]).

    Integers of the C++ code are [Z] (with the range of their type written
    out where it matters), vectors are lists, the Qt event queue of the
    renderer thread is a list of messages, and every call the renderer makes
    on a view, on the OpenGL function bundle [m_glfs] or on its extrema
    future is appended to a log.  Methods are actions of a state monad with
    exceptions: what a method changed before it throws stays changed, as in
    C++.

    A method that holds [m_lock] is one action: the two threads interleave
    between actions, a request at any time, a slot when its message is the
    oldest in the queue.

    Left out: the pointer [m_glfs] itself (its calls are logged whether or
    not the bundle was retrieved), the debug logger, the widgets' locks, and
    the single-precision arithmetic of the projection matrix, of
    [m_imageAspectRatio] and of the highlight coordinate, of which only the
    uploads are recorded. *)

From Stdlib Require Import String ZArith List Bool Lia.
Import ListNotations.
Local Open Scope Z_scope.

(** ** Basic data *)

(** [std::numeric_limits<GLuint>::max()], the "unallocated" handle. *)
Definition GLuint_max : Z := 4294967295.

(** A [GLushort] sample is an integer of [0 .. 65535]. *)
Definition is_GLushort (p : Z) : Prop := 0 <= p <= 65535.

(** [ImageData]: the flat vector of 16-bit samples. *)
Definition ImageData := list Z.

(** [HistogramData]: the vector of 32-bit bin counts. *)
Definition HistogramData := list Z.

Record QSize := mkQSize { width : Z; height : Z }.

(** [QSize::operator!=] *)
Definition QSize_neq (a b : QSize) : bool :=
  negb (width a =? width b) || negb (height a =? height b).

(** [std::vector::empty] *)
Definition empty {A} (v : list A) : bool :=
  match v with [] => true | _ :: _ => false end.

(** [std::vector::resize(n, x)]: truncate, or pad with copies of [x]. *)
Definition resize {A} (v : list A) (n : nat) (x : A) : list A :=
  firstn n v ++ repeat x (n - length v).

(** [std::fill(v.begin(), v.end(), x)] *)
Definition fill {A} (v : list A) (x : A) : list A :=
  repeat x (length v).

(** [ceil(static_cast<double>(a) / b)] for a non-negative [a] and a positive
    [b] of 32 bits, where the double division is exact enough for the
    ceiling to be the integer one. *)
Definition ceil_div (a b : Z) : Z := (a + b - 1) / b.

(** ** Single-precision values

    A [GLfloat] is its IEEE-754 binary32 bit pattern, an integer of
    [0 .. 2^32-1]; the comparison [!=] of C++ is written out on it: a NaN
    differs from everything, itself included, and the two zeros are equal. *)

Definition GLfloat := Z.

Module IEEE32.

Definition exponent (f : GLfloat) : Z := Z.land (Z.shiftr f 23) 255.
Definition fraction (f : GLfloat) : Z := Z.land f 8388607.

Definition is_nan (f : GLfloat) : bool :=
  (exponent f =? 255) && negb (fraction f =? 0).

Definition is_zero (f : GLfloat) : bool := Z.land f 2147483647 =? 0.

(** [a == b] *)
Definition eq (a b : GLfloat) : bool :=
  negb (is_nan a) && negb (is_nan b) && ((a =? b) || (is_zero a && is_zero b)).

(** [a != b] *)
Definition ne (a b : GLfloat) : bool := negb (eq a b).

(** [glm::vec2::operator!=] *)
Definition ne2 (a b : GLfloat * GLfloat) : bool :=
  ne (fst a) (fst b) || ne (snd a) (snd b).

(** 1.0f and a quiet NaN *)
Definition one : GLfloat := 1065353216.
Definition quiet_nan : GLfloat := 2143289344.

End IEEE32.

(** ** Renderer::findImageExtrema *)

Module Extrema.

(** The body of the range-for loop: [ret] is the running (min, max) pair. *)
Definition scan (ret : Z * Z) (p : Z) : Z * Z :=
  if p <? fst ret then (p, snd ret)
  else if p >? snd ret then (fst ret, p)
  else ret.

Definition findImageExtrema (imageData : ImageData) : Z * Z :=
  let ret := (65535, 0) in
  if (length imageData =? 1)%nat
  then (nth 0 imageData 0, nth 0 imageData 0)
  else fold_left scan imageData ret.

(** What a minimum and a maximum of a sequence are. *)
Definition minimum_of (l : list Z) (m : Z) : Prop :=
  In m l /\ forall x, In x l -> m <= x.

Definition maximum_of (l : list Z) (m : Z) : Prop :=
  In m l /\ forall x, In x l -> x <= m.

End Extrema.

Import Extrema.

(** ** Collaborators of the renderer *)

(** A [View*] argument: the renderer's image view, its histogram view, or
    any other view object. *)
Inductive View :=
| ImageView
| HistogramView
| OtherView (address : Z).

(** The three signals of the renderer that are connected with
    [Qt::QueuedConnection]; an emission is a message in the event queue of
    the renderer's thread. *)
Inductive Message :=
| _updateView (view : View)
| _newImage (imageData : ImageData) (imageSize : QSize) (filter : bool)
| _setHistogramBinCount (histogramBinCount : Z).

(** The shared state of [std::async(&Renderer::findImageExtrema, imageData)]:
    every launch makes a new task, told apart by its number, that owns a
    copy of the image data. *)
Record Future := mkFuture { task_id : nat; task_arg : ImageData }.

(** [std::future::get]: the task's result. *)
Definition Future_get (f : Future) : Z * Z := findImageExtrema (task_arg f).

Inductive ProgramId :=
| histoCalcProg | histoConsolidateProg | imageDrawProg | histoDrawProg.

Inductive LocationName :=
| invocationRegionSizeLoc | binCountLoc | invocationBinCountLoc
| imageLoc | blocksLoc | histogramLoc | extremaLoc | highlightCoordsLoc
| projectionModelViewMatrixLoc | gtpMinLoc | gtpMaxLoc | gtpGammaLoc
| gammaGammaLoc | binScaleLoc | binIndexLoc.

(** [m_histoDrawProg.binCountLoc] is [Loc histoDrawProg binCountLoc]. *)
Inductive Location := Loc (prog : ProgramId) (name : LocationName).

Inductive TextureTarget := GL_TEXTURE_1D | GL_TEXTURE_2D | GL_TEXTURE_2D_ARRAY.
Inductive ImageAccess := GL_READ_ONLY | GL_WRITE_ONLY | GL_READ_WRITE.
Inductive TextureParameter :=
| GL_TEXTURE_WRAP_S | GL_TEXTURE_WRAP_T
| GL_TEXTURE_MIN_FILTER | GL_TEXTURE_MAG_FILTER.
Inductive TextureParameterValue := GL_CLAMP_TO_EDGE | GL_LINEAR | GL_NEAREST.
Inductive DrawMode := GL_TRIANGLE_FAN | GL_LINE_STRIP | GL_POINTS.
Inductive Barrier :=
| GL_SHADER_IMAGE_ACCESS_BARRIER_BIT
| GL_BUFFER_UPDATE_BARRIER_BIT.
Inductive BufferTarget := GL_SHADER_STORAGE_BUFFER | GL_ARRAY_BUFFER.

(** Buffer objects: the two made when the programs are built, a generated
    name, or 0. *)
Inductive Buffer :=
| extremaBuff | highlightCoordsBuff | buffer_name (name : Z) | buffer_0.

(** Vertex array objects: the quad made when the image-draw program is
    built, or a generated name. *)
Inductive VertexArray := quadVao | vertex_array (name : Z).

(** The subroutine index handed to [glUniformSubroutinesuiv]. *)
Inductive Subroutine :=
| imagePanelGammaTransformColorerHighlightIdx
| imagePanelPassthroughColorerHighlightIdx
| imagePanelGammaTransformColorerIdx
| imagePanelPassthroughColorerIdx.

(** The [GLfloat] argument of [glUniform1f]: a float of the program, or an
    integer converted by [static_cast<GLfloat>]. *)
Inductive FloatArg :=
| float_value (f : GLfloat)
| float_of_integer (n : Z).

(** The calls the renderer makes, with the arguments that vary. *)
Inductive Call :=
| makeCurrent (view : View)
| swapBuffers (view : View)
| build (prog : ProgramId)
| updateGlViewportSize (view : View)
| newImageExtrema (min max : Z)
| future_get (f : Future)
| glUseProgram (prog : ProgramId)
| glClearColor
| glClearDepth
| glClear
| glGenTextures (name : Z)
| glDeleteTextures (name : Z)
| glBindTexture (target : TextureTarget) (name : Z)
| glTexStorage1D (w : Z)
| glTexStorage2D (w h : Z)
| glTexStorage3D (w h d : Z)
| glTexSubImage1D (w : Z) (data : list Z)
| glTexSubImage2D (w h : Z) (data : list Z)
| glTexSubImage3D (w h d : Z) (data : list Z)
| glGetTexImage (target : TextureTarget)
| glTexParameteri (pname : TextureParameter) (param : TextureParameterValue)
| glUniform1f (loc : Location) (v : FloatArg)
| glUniform1ui (loc : Location) (v : Z)
| glUniform2i (loc : Location) (v0 v1 : Z)
| glUniformMatrix4fv (loc : Location)
| glUniformSubroutinesuiv (sub : Subroutine)
| glBindImageTexture (loc : Location) (name : Z) (layered : bool)
    (access : ImageAccess)
| glBindBuffer (target : BufferTarget) (buffer : Buffer)
| glBindBufferBase (loc : Location) (buffer : Buffer)
| glBufferSubData_extrema (min max : Z)
| glBufferSubData_highlight (coord : GLfloat * GLfloat)
| glBufferData_points (points : list Z)
| glGetBufferSubData (buffer : Buffer)
| glGenVertexArrays (name : Z)
| glDeleteVertexArrays (name : Z)
| glBindVertexArray (vao : VertexArray)
| glGenBuffers (name : Z)
| glDeleteBuffers (name : Z)
| glEnableVertexAttribArray (loc : Location)
| glVertexAttribPointer (loc : Location)
| glDispatchCompute (x y z : Z)
| glMemoryBarrier (barriers : list Barrier)
| glDrawArrays (mode : DrawMode) (first count : Z)
| glPointSize (size : Z).

(** ** The program objects (GlProgram.h), as far as Renderer.cpp reads and
    writes their members

    GlProgram.h is not among the sources.  The work-group and invocation
    counts are the constants it declares; [gtpMin] and [gtpMax] cache
    [GLushort] values, which compare exactly whether the members are
    integers or floats; [gtpGamma] and [gammaGamma] cache floats. *)

Record HistoCalcProg := mkHistoCalcProg {
  wgCountPerAxis : Z;
  liCountPerAxis : Z }.

Record HistoConsolidateProg := mkHistoConsolidateProg {
  liCount : Z;
  extrema : Z * Z }.

Record ImageDrawProg := mkImageDrawProg {
  gtpEnabled : bool;
  gtpMin : Z;
  gtpMax : Z;
  gtpGamma : GLfloat;
  wantedHighlightCoord : GLfloat * GLfloat;
  actualHighlightCoord : GLfloat * GLfloat }.

Record HistoDrawProg := mkHistoDrawProg {
  gammaGamma : GLfloat;
  pointVao : Z;
  pointVaoBuff : Z }.

(** ** The renderer object *)

Record Renderer := mkRenderer {
  m_threadInited : bool;
  (** [m_imageView->m_context != nullptr] *)
  m_imageView_m_context : bool;
  m_imageViewUpdatePending : bool;
  (** [m_histogramView->m_context != nullptr] *)
  m_histogramView_m_context : bool;
  m_histogramViewUpdatePending : bool;
  m_histoCalcProg : HistoCalcProg;
  m_histoConsolidateProg : HistoConsolidateProg;
  m_imageDrawProg : ImageDrawProg;
  m_histoDrawProg : HistoDrawProg;
  m_image : Z;
  m_imageData : ImageData;
  m_imageSize : QSize;
  (** [None] is a future that is not [valid()] *)
  m_imageExtremaFuture : option Future;
  m_imageExtrema : Z * Z;
  m_histogramBinCount : Z;
  m_histogramBlocks : Z;
  m_histogram : Z;
  m_histogramData : HistogramData }.

(** The renderer together with what surrounds it: the queue of its thread's
    event loop (oldest message first), the log of the calls made so far, the
    next unused object name of the GL context group and the number of
    asynchronous tasks launched so far. *)
Record World := mkWorld {
  renderer : Renderer;
  eventQueue : list Message;
  calls : list Call;
  glNames : Z;
  asyncLaunched : nat }.

(** Assignment to one member. *)

Definition set_gtpEnabled (v : bool) (r : ImageDrawProg) : ImageDrawProg :=
  mkImageDrawProg v (gtpMin r) (gtpMax r) (gtpGamma r)
    (wantedHighlightCoord r) (actualHighlightCoord r).

Definition set_gtpMin (v : Z) (r : ImageDrawProg) : ImageDrawProg :=
  mkImageDrawProg (gtpEnabled r) v (gtpMax r) (gtpGamma r)
    (wantedHighlightCoord r) (actualHighlightCoord r).

Definition set_gtpMax (v : Z) (r : ImageDrawProg) : ImageDrawProg :=
  mkImageDrawProg (gtpEnabled r) (gtpMin r) v (gtpGamma r)
    (wantedHighlightCoord r) (actualHighlightCoord r).

Definition set_gtpGamma (v : GLfloat) (r : ImageDrawProg) : ImageDrawProg :=
  mkImageDrawProg (gtpEnabled r) (gtpMin r) (gtpMax r) v
    (wantedHighlightCoord r) (actualHighlightCoord r).

Definition set_wantedHighlightCoord (v : GLfloat * GLfloat) (r : ImageDrawProg) : ImageDrawProg :=
  mkImageDrawProg (gtpEnabled r) (gtpMin r) (gtpMax r) (gtpGamma r) v
    (actualHighlightCoord r).

Definition set_actualHighlightCoord (v : GLfloat * GLfloat) (r : ImageDrawProg) : ImageDrawProg :=
  mkImageDrawProg (gtpEnabled r) (gtpMin r) (gtpMax r) (gtpGamma r)
    (wantedHighlightCoord r) v.

Definition set_gammaGamma (v : GLfloat) (r : HistoDrawProg) : HistoDrawProg :=
  mkHistoDrawProg v (pointVao r) (pointVaoBuff r).

Definition set_pointVao (v : Z) (r : HistoDrawProg) : HistoDrawProg :=
  mkHistoDrawProg (gammaGamma r) v (pointVaoBuff r).

Definition set_pointVaoBuff (v : Z) (r : HistoDrawProg) : HistoDrawProg :=
  mkHistoDrawProg (gammaGamma r) (pointVao r) v.

Definition set_liCount (v : Z) (r : HistoConsolidateProg) : HistoConsolidateProg :=
  mkHistoConsolidateProg v (extrema r).

Definition set_extrema (v : Z * Z) (r : HistoConsolidateProg) : HistoConsolidateProg :=
  mkHistoConsolidateProg (liCount r) v.

Definition set_m_threadInited (v : bool) (r : Renderer) : Renderer :=
  mkRenderer v (m_imageView_m_context r) (m_imageViewUpdatePending r)
    (m_histogramView_m_context r) (m_histogramViewUpdatePending r)
    (m_histoCalcProg r) (m_histoConsolidateProg r) (m_imageDrawProg r)
    (m_histoDrawProg r) (m_image r) (m_imageData r) (m_imageSize r)
    (m_imageExtremaFuture r) (m_imageExtrema r) (m_histogramBinCount r)
    (m_histogramBlocks r) (m_histogram r) (m_histogramData r).

Definition set_m_imageView_m_context (v : bool) (r : Renderer) : Renderer :=
  mkRenderer (m_threadInited r) v (m_imageViewUpdatePending r)
    (m_histogramView_m_context r) (m_histogramViewUpdatePending r)
    (m_histoCalcProg r) (m_histoConsolidateProg r) (m_imageDrawProg r)
    (m_histoDrawProg r) (m_image r) (m_imageData r) (m_imageSize r)
    (m_imageExtremaFuture r) (m_imageExtrema r) (m_histogramBinCount r)
    (m_histogramBlocks r) (m_histogram r) (m_histogramData r).

Definition set_m_imageViewUpdatePending (v : bool) (r : Renderer) : Renderer :=
  mkRenderer (m_threadInited r) (m_imageView_m_context r) v
    (m_histogramView_m_context r) (m_histogramViewUpdatePending r)
    (m_histoCalcProg r) (m_histoConsolidateProg r) (m_imageDrawProg r)
    (m_histoDrawProg r) (m_image r) (m_imageData r) (m_imageSize r)
    (m_imageExtremaFuture r) (m_imageExtrema r) (m_histogramBinCount r)
    (m_histogramBlocks r) (m_histogram r) (m_histogramData r).

Definition set_m_histogramView_m_context (v : bool) (r : Renderer) : Renderer :=
  mkRenderer (m_threadInited r) (m_imageView_m_context r)
    (m_imageViewUpdatePending r) v (m_histogramViewUpdatePending r)
    (m_histoCalcProg r) (m_histoConsolidateProg r) (m_imageDrawProg r)
    (m_histoDrawProg r) (m_image r) (m_imageData r) (m_imageSize r)
    (m_imageExtremaFuture r) (m_imageExtrema r) (m_histogramBinCount r)
    (m_histogramBlocks r) (m_histogram r) (m_histogramData r).

Definition set_m_histogramViewUpdatePending (v : bool) (r : Renderer) : Renderer :=
  mkRenderer (m_threadInited r) (m_imageView_m_context r)
    (m_imageViewUpdatePending r) (m_histogramView_m_context r) v
    (m_histoCalcProg r) (m_histoConsolidateProg r) (m_imageDrawProg r)
    (m_histoDrawProg r) (m_image r) (m_imageData r) (m_imageSize r)
    (m_imageExtremaFuture r) (m_imageExtrema r) (m_histogramBinCount r)
    (m_histogramBlocks r) (m_histogram r) (m_histogramData r).

Definition set_m_histoCalcProg (v : HistoCalcProg) (r : Renderer) : Renderer :=
  mkRenderer (m_threadInited r) (m_imageView_m_context r)
    (m_imageViewUpdatePending r) (m_histogramView_m_context r)
    (m_histogramViewUpdatePending r) v (m_histoConsolidateProg r)
    (m_imageDrawProg r) (m_histoDrawProg r) (m_image r) (m_imageData r)
    (m_imageSize r) (m_imageExtremaFuture r) (m_imageExtrema r)
    (m_histogramBinCount r) (m_histogramBlocks r) (m_histogram r)
    (m_histogramData r).

Definition set_m_histoConsolidateProg (v : HistoConsolidateProg) (r : Renderer) : Renderer :=
  mkRenderer (m_threadInited r) (m_imageView_m_context r)
    (m_imageViewUpdatePending r) (m_histogramView_m_context r)
    (m_histogramViewUpdatePending r) (m_histoCalcProg r) v (m_imageDrawProg r)
    (m_histoDrawProg r) (m_image r) (m_imageData r) (m_imageSize r)
    (m_imageExtremaFuture r) (m_imageExtrema r) (m_histogramBinCount r)
    (m_histogramBlocks r) (m_histogram r) (m_histogramData r).

Definition set_m_imageDrawProg (v : ImageDrawProg) (r : Renderer) : Renderer :=
  mkRenderer (m_threadInited r) (m_imageView_m_context r)
    (m_imageViewUpdatePending r) (m_histogramView_m_context r)
    (m_histogramViewUpdatePending r) (m_histoCalcProg r)
    (m_histoConsolidateProg r) v (m_histoDrawProg r) (m_image r)
    (m_imageData r) (m_imageSize r) (m_imageExtremaFuture r)
    (m_imageExtrema r) (m_histogramBinCount r) (m_histogramBlocks r)
    (m_histogram r) (m_histogramData r).

Definition set_m_histoDrawProg (v : HistoDrawProg) (r : Renderer) : Renderer :=
  mkRenderer (m_threadInited r) (m_imageView_m_context r)
    (m_imageViewUpdatePending r) (m_histogramView_m_context r)
    (m_histogramViewUpdatePending r) (m_histoCalcProg r)
    (m_histoConsolidateProg r) (m_imageDrawProg r) v (m_image r)
    (m_imageData r) (m_imageSize r) (m_imageExtremaFuture r)
    (m_imageExtrema r) (m_histogramBinCount r) (m_histogramBlocks r)
    (m_histogram r) (m_histogramData r).

Definition set_m_image (v : Z) (r : Renderer) : Renderer :=
  mkRenderer (m_threadInited r) (m_imageView_m_context r)
    (m_imageViewUpdatePending r) (m_histogramView_m_context r)
    (m_histogramViewUpdatePending r) (m_histoCalcProg r)
    (m_histoConsolidateProg r) (m_imageDrawProg r) (m_histoDrawProg r) v
    (m_imageData r) (m_imageSize r) (m_imageExtremaFuture r)
    (m_imageExtrema r) (m_histogramBinCount r) (m_histogramBlocks r)
    (m_histogram r) (m_histogramData r).

Definition set_m_imageData (v : ImageData) (r : Renderer) : Renderer :=
  mkRenderer (m_threadInited r) (m_imageView_m_context r)
    (m_imageViewUpdatePending r) (m_histogramView_m_context r)
    (m_histogramViewUpdatePending r) (m_histoCalcProg r)
    (m_histoConsolidateProg r) (m_imageDrawProg r) (m_histoDrawProg r)
    (m_image r) v (m_imageSize r) (m_imageExtremaFuture r) (m_imageExtrema r)
    (m_histogramBinCount r) (m_histogramBlocks r) (m_histogram r)
    (m_histogramData r).

Definition set_m_imageSize (v : QSize) (r : Renderer) : Renderer :=
  mkRenderer (m_threadInited r) (m_imageView_m_context r)
    (m_imageViewUpdatePending r) (m_histogramView_m_context r)
    (m_histogramViewUpdatePending r) (m_histoCalcProg r)
    (m_histoConsolidateProg r) (m_imageDrawProg r) (m_histoDrawProg r)
    (m_image r) (m_imageData r) v (m_imageExtremaFuture r) (m_imageExtrema r)
    (m_histogramBinCount r) (m_histogramBlocks r) (m_histogram r)
    (m_histogramData r).

Definition set_m_imageExtremaFuture (v : option Future) (r : Renderer) : Renderer :=
  mkRenderer (m_threadInited r) (m_imageView_m_context r)
    (m_imageViewUpdatePending r) (m_histogramView_m_context r)
    (m_histogramViewUpdatePending r) (m_histoCalcProg r)
    (m_histoConsolidateProg r) (m_imageDrawProg r) (m_histoDrawProg r)
    (m_image r) (m_imageData r) (m_imageSize r) v (m_imageExtrema r)
    (m_histogramBinCount r) (m_histogramBlocks r) (m_histogram r)
    (m_histogramData r).

Definition set_m_imageExtrema (v : Z * Z) (r : Renderer) : Renderer :=
  mkRenderer (m_threadInited r) (m_imageView_m_context r)
    (m_imageViewUpdatePending r) (m_histogramView_m_context r)
    (m_histogramViewUpdatePending r) (m_histoCalcProg r)
    (m_histoConsolidateProg r) (m_imageDrawProg r) (m_histoDrawProg r)
    (m_image r) (m_imageData r) (m_imageSize r) (m_imageExtremaFuture r) v
    (m_histogramBinCount r) (m_histogramBlocks r) (m_histogram r)
    (m_histogramData r).

Definition set_m_histogramBinCount (v : Z) (r : Renderer) : Renderer :=
  mkRenderer (m_threadInited r) (m_imageView_m_context r)
    (m_imageViewUpdatePending r) (m_histogramView_m_context r)
    (m_histogramViewUpdatePending r) (m_histoCalcProg r)
    (m_histoConsolidateProg r) (m_imageDrawProg r) (m_histoDrawProg r)
    (m_image r) (m_imageData r) (m_imageSize r) (m_imageExtremaFuture r)
    (m_imageExtrema r) v (m_histogramBlocks r) (m_histogram r)
    (m_histogramData r).

Definition set_m_histogramBlocks (v : Z) (r : Renderer) : Renderer :=
  mkRenderer (m_threadInited r) (m_imageView_m_context r)
    (m_imageViewUpdatePending r) (m_histogramView_m_context r)
    (m_histogramViewUpdatePending r) (m_histoCalcProg r)
    (m_histoConsolidateProg r) (m_imageDrawProg r) (m_histoDrawProg r)
    (m_image r) (m_imageData r) (m_imageSize r) (m_imageExtremaFuture r)
    (m_imageExtrema r) (m_histogramBinCount r) v (m_histogram r)
    (m_histogramData r).

Definition set_m_histogram (v : Z) (r : Renderer) : Renderer :=
  mkRenderer (m_threadInited r) (m_imageView_m_context r)
    (m_imageViewUpdatePending r) (m_histogramView_m_context r)
    (m_histogramViewUpdatePending r) (m_histoCalcProg r)
    (m_histoConsolidateProg r) (m_imageDrawProg r) (m_histoDrawProg r)
    (m_image r) (m_imageData r) (m_imageSize r) (m_imageExtremaFuture r)
    (m_imageExtrema r) (m_histogramBinCount r) (m_histogramBlocks r) v
    (m_histogramData r).

Definition set_m_histogramData (v : HistogramData) (r : Renderer) : Renderer :=
  mkRenderer (m_threadInited r) (m_imageView_m_context r)
    (m_imageViewUpdatePending r) (m_histogramView_m_context r)
    (m_histogramViewUpdatePending r) (m_histoCalcProg r)
    (m_histoConsolidateProg r) (m_imageDrawProg r) (m_histoDrawProg r)
    (m_image r) (m_imageData r) (m_imageSize r) (m_imageExtremaFuture r)
    (m_imageExtrema r) (m_histogramBinCount r) (m_histogramBlocks r)
    (m_histogram r) v.

Definition set_renderer (v : Renderer) (r : World) : World :=
  mkWorld v (eventQueue r) (calls r) (glNames r) (asyncLaunched r).

Definition set_eventQueue (v : list Message) (r : World) : World :=
  mkWorld (renderer r) v (calls r) (glNames r) (asyncLaunched r).

Definition set_calls (v : list Call) (r : World) : World :=
  mkWorld (renderer r) (eventQueue r) v (glNames r) (asyncLaunched r).

Definition set_glNames (v : Z) (r : World) : World :=
  mkWorld (renderer r) (eventQueue r) (calls r) v (asyncLaunched r).

Definition set_asyncLaunched (v : nat) (r : World) : World :=
  mkWorld (renderer r) (eventQueue r) (calls r) (glNames r) v.

(** ** What the renderer thread reads from outside while a slot runs *)

(** The members of the image widget and of the histogram widget that the
    draw functions read under the widgets' locks. *)
Record ImageWidget := mkImageWidget {
  m_highlightPointer : bool;
  m_pointerIsOnImagePixel : bool }.

Record HistogramWidget := mkHistogramWidget {
  m_gtpEnabled : bool;
  m_gtpAutoMinMaxEnabled : bool;
  m_gtpMin : Z;
  m_gtpMax : Z;
  m_gtpGamma : GLfloat;
  m_gtpGammaGamma : GLfloat }.

(** The widgets as they are when the slot runs, and what the GPU hands back:
    the texels of the consolidated histogram texture, the contents of the
    extrema buffer and of the second slot of the highlight buffer.  The
    single-precision arithmetic that turns the pointer's pixel coordinate
    into [wantedHighlightCoord] is not computed here: its result is part of
    the environment too. *)
Record Env := mkEnv {
  imageWidget : ImageWidget;
  histogramWidget : HistogramWidget;
  computedHighlightCoord : GLfloat * GLfloat;
  histogramTexels : nat -> Z;
  extremaBuffer : Z * Z;
  highlightBuffer : GLfloat * GLfloat }.

(** What [threadInitSlot] meets: whether the two [QOpenGLContext::create]
    calls succeed, whether a function bundle is returned and whether it
    initialises. *)
Record InitEnv := mkInitEnv {
  imageContextCreated : bool;
  histogramContextCreated : bool;
  functionsRetrieved : bool;
  functionsInitialized : bool }.

(** ** The monad of the methods *)

Inductive outcome (A : Type) :=
| returned (a : A)
| thrown (what : string).
Arguments returned {A} a.
Arguments thrown {A} what.

Definition M (A : Type) : Type := World -> World * outcome A.

Definition ret {A} (a : A) : M A := fun w => (w, returned a).

Definition bind {A B} (m : M A) (k : A -> M B) : M B :=
  fun w =>
    match m w with
    | (w', returned a) => k a w'
    | (w', thrown e) => (w', thrown e)
    end.

Definition throw {A} (what : string) : M A := fun w => (w, thrown what).

Declare Scope renderer_scope.
Delimit Scope renderer_scope with renderer.
Notation "x <- m ;; k" := (bind m (fun x => k))
  (at level 61, m at next level, right associativity) : renderer_scope.
Notation "m ;; k" := (bind m (fun _ => k))
  (at level 61, right associativity) : renderer_scope.
Local Open Scope renderer_scope.

(** Reading and writing the renderer's members. *)
Definition getR {A} (member : Renderer -> A) : M A :=
  fun w => (w, returned (member (renderer w))).

Definition modifyR (f : Renderer -> Renderer) : M unit :=
  fun w => (set_renderer (f (renderer w)) w, returned tt).

(** A call on a collaborator. *)
Definition call (c : Call) : M unit :=
  fun w => (set_calls (calls w ++ [c]) w, returned tt).

(** [emit signal(...)] through a queued connection. *)
Definition emit (m : Message) : M unit :=
  fun w => (set_eventQueue (eventQueue w ++ [m]) w, returned tt).

(** [if(c) { body }] *)
Definition when (c : bool) (body : M unit) : M unit :=
  if c then body else ret tt.

(** [glGenTextures(1, &name)], [glGenVertexArrays], [glGenBuffers]: the
    context hands out its next unused name. *)
Definition genName (gen : Z -> Call) : M Z :=
  fun w =>
    (set_calls (calls w ++ [gen (glNames w)]) (set_glNames (glNames w + 1) w),
     returned (glNames w)).

(** [std::async(&Renderer::findImageExtrema, imageData)] *)
Definition std_async (imageData : ImageData) : M Future :=
  fun w =>
    (set_asyncLaunched (S (asyncLaunched w)) w,
     returned (mkFuture (asyncLaunched w) imageData)).

(** ** Renderer::Renderer

    The constructor's member initialisers.  The two views are made by the
    widgets before the renderer and the four program objects by
    GlProgram.cpp, neither among the sources: whether a view already has a
    context, and the values the program objects start with, are arguments.
    [m_imageExtremaFuture] and [m_imageExtrema] are default-constructed. *)
Definition Renderer_new (imageViewContext histogramViewContext : bool)
    (calc : HistoCalcProg) (consolidate : HistoConsolidateProg)
    (imageDraw : ImageDrawProg) (histoDraw : HistoDrawProg) : Renderer :=
  {| m_threadInited := false;
     m_imageView_m_context := imageViewContext;
     m_imageViewUpdatePending := false;
     m_histogramView_m_context := histogramViewContext;
     m_histogramViewUpdatePending := false;
     m_histoCalcProg := calc;
     m_histoConsolidateProg := consolidate;
     m_imageDrawProg := imageDraw;
     m_histoDrawProg := histoDraw;
     m_image := GLuint_max;
     m_imageData := [];
     m_imageSize := mkQSize 0 0;
     m_imageExtremaFuture := None;
     m_imageExtrema := (0, 0);
     m_histogramBinCount := 2048;
     m_histogramBlocks := GLuint_max;
     m_histogram := GLuint_max;
     m_histogramData := repeat 0 2048%nat |}.

(** A fresh renderer in a world where nothing has happened yet. *)
Definition World_new (imageViewContext histogramViewContext : bool)
    (calc : HistoCalcProg) (consolidate : HistoConsolidateProg)
    (imageDraw : ImageDrawProg) (histoDraw : HistoDrawProg) : World :=
  {| renderer := Renderer_new imageViewContext histogramViewContext
                   calc consolidate imageDraw histoDraw;
     eventQueue := [];
     calls := [];
     glNames := 1;
     asyncLaunched := 0%nat |}.

(** ** Requests, on the caller's thread *)

(** [bool* updatePending]: which of the two flags the pointer designates. *)
Inductive UpdatePending :=
| addr_m_imageViewUpdatePending
| addr_m_histogramViewUpdatePending.

Definition deref (p : UpdatePending) (r : Renderer) : bool :=
  match p with
  | addr_m_imageViewUpdatePending => m_imageViewUpdatePending r
  | addr_m_histogramViewUpdatePending => m_histogramViewUpdatePending r
  end.

Definition assign (p : UpdatePending) (v : bool) (r : Renderer) : Renderer :=
  match p with
  | addr_m_imageViewUpdatePending => set_m_imageViewUpdatePending v r
  | addr_m_histogramViewUpdatePending => set_m_histogramViewUpdatePending v r
  end.

(** [view->m_context] for one of the renderer's two views. *)
Definition m_context (view : View) (r : Renderer) : bool :=
  match view with
  | ImageView => m_imageView_m_context r
  | HistogramView => m_histogramView_m_context r
  | OtherView _ => false
  end.

Definition updateView (view : View) : M unit :=
  updatePending <-
    match view with
    | ImageView => ret addr_m_imageViewUpdatePending
    | HistogramView => ret addr_m_histogramViewUpdatePending
    | OtherView _ =>
        throw "Renderer::updateView(View* view): View argument refers to neither image nor histogram view."
    end ;;
  pending <- getR (deref updatePending) ;;
  context <- getR (m_context view) ;;
  when (negb pending && context)
    (modifyR (assign updatePending true) ;;
     emit (_updateView view)).

Definition showImage (imageData : ImageData) (imageSize : QSize)
    (filter : bool) : M unit :=
  (if negb (empty imageData) then
     when ((width imageSize <=? 0) || (height imageSize <=? 0))
       (throw "Renderer::showImage(const ImageData& imageData, const QSize& imageSize, const bool& filter): imageData is not empty, but at least one dimension of imageSize is less than or equal to zero.") ;;
     future <- std_async imageData ;;
     modifyR (set_m_imageExtremaFuture (Some future))
   else
     modifyR (set_m_imageExtremaFuture None)) ;;
  emit (_newImage imageData imageSize filter).

Definition setHistogramBinCount (histogramBinCount : Z) : M unit :=
  emit (_setHistogramBinCount histogramBinCount).

(** ** GPU work, on the renderer's thread *)

(** Assignment to a member of a program object. *)
Definition on_imageDrawProg (f : ImageDrawProg -> ImageDrawProg)
    (r : Renderer) : Renderer :=
  set_m_imageDrawProg (f (m_imageDrawProg r)) r.

Definition on_histoDrawProg (f : HistoDrawProg -> HistoDrawProg)
    (r : Renderer) : Renderer :=
  set_m_histoDrawProg (f (m_histoDrawProg r)) r.

Definition on_histoConsolidateProg
    (f : HistoConsolidateProg -> HistoConsolidateProg)
    (r : Renderer) : Renderer :=
  set_m_histoConsolidateProg (f (m_histoConsolidateProg r)) r.

Definition delImage : M unit :=
  image <- getR m_image ;;
  when (negb (image =? GLuint_max))
    (modifyR (set_m_imageData []) ;;
     call (glDeleteTextures image) ;;
     modifyR (set_m_image GLuint_max) ;;
     modifyR (set_m_imageSize (mkQSize 0 0))).

Definition delHistogramBlocks : M unit :=
  histogramBlocks <- getR m_histogramBlocks ;;
  when (negb (histogramBlocks =? GLuint_max))
    (call (glDeleteTextures histogramBlocks) ;;
     modifyR (set_m_histogramBlocks GLuint_max)).

Definition delHistogram : M unit :=
  histogram <- getR m_histogram ;;
  when (negb (histogram =? GLuint_max))
    (call (glDeleteTextures histogram) ;;
     modifyR (set_m_histogram GLuint_max) ;;
     call (makeCurrent HistogramView) ;;
     call (glUseProgram histoDrawProg) ;;
     prog <- getR m_histoDrawProg ;;
     call (glDeleteVertexArrays (pointVao prog)) ;;
     modifyR (on_histoDrawProg (set_pointVao GLuint_max)) ;;
     call (glDeleteBuffers (pointVaoBuff prog)) ;;
     modifyR (on_histoDrawProg (set_pointVaoBuff GLuint_max))).

Definition makeContexts (init : InitEnv) : M unit :=
  modifyR (set_m_imageView_m_context true) ;;
  modifyR (set_m_histogramView_m_context true) ;;
  when (negb (imageContextCreated init))
    (throw "Renderer::makeContexts(): Failed to create OpenGL context for imageView.") ;;
  when (negb (histogramContextCreated init))
    (throw "Renderer::makeContexts(): Failed to create OpenGL context for histogramView.").

Definition makeGlfs (init : InitEnv) : M unit :=
  call (makeCurrent ImageView) ;;
  when (negb (functionsRetrieved init))
    (throw "Renderer::makeGlfs(): Failed to retrieve OpenGL function bundle.") ;;
  when (negb (functionsInitialized init))
    (throw "Renderer::makeGlfs(): Failed to initialize OpenGL function bundle.").

Definition buildGlProgs : M unit :=
  call (makeCurrent HistogramView) ;;
  call (build histoCalcProg) ;;
  call (build histoConsolidateProg) ;;
  call (build histoDrawProg) ;;
  call (makeCurrent ImageView) ;;
  call (build imageDrawProg).

Definition execHistoCalc : M unit :=
  call (makeCurrent HistogramView) ;;
  call (glUseProgram histoCalcProg) ;;
  (* Set up data *)
  prog <- getR m_histoCalcProg ;;
  binCount <- getR m_histogramBinCount ;;
  histogramBlocks <- getR m_histogramBlocks ;;
  (if histogramBlocks =? GLuint_max then
     name <- genName glGenTextures ;;
     modifyR (set_m_histogramBlocks name) ;;
     call (glBindTexture GL_TEXTURE_2D_ARRAY name) ;;
     call (glTexStorage3D (wgCountPerAxis prog) (wgCountPerAxis prog) binCount)
   else
     call (glBindTexture GL_TEXTURE_2D_ARRAY histogramBlocks)) ;;
  let zerosV :=
    repeat 0 (Z.to_nat (wgCountPerAxis prog * wgCountPerAxis prog * binCount)) in
  call (glTexSubImage3D (wgCountPerAxis prog) (wgCountPerAxis prog) binCount
          zerosV) ;;
  let axisInvocations := wgCountPerAxis prog * liCountPerAxis prog in
  imageSize <- getR m_imageSize ;;
  call (glUniform2i (Loc histoCalcProg invocationRegionSizeLoc)
          (ceil_div (width imageSize) axisInvocations)
          (ceil_div (height imageSize) axisInvocations)) ;;
  call (glUniform1f (Loc histoCalcProg binCountLoc) (float_of_integer binCount)) ;;
  (* Execute *)
  call (glBindTexture GL_TEXTURE_2D 0) ;;
  image <- getR m_image ;;
  call (glBindImageTexture (Loc histoCalcProg imageLoc) image false GL_READ_ONLY) ;;
  call (glBindTexture GL_TEXTURE_2D_ARRAY 0) ;;
  histogramBlocks <- getR m_histogramBlocks ;;
  call (glBindImageTexture (Loc histoCalcProg blocksLoc) histogramBlocks true
          GL_WRITE_ONLY) ;;
  call (glDispatchCompute (wgCountPerAxis prog) (wgCountPerAxis prog) 1) ;;
  call (glMemoryBarrier [GL_SHADER_IMAGE_ACCESS_BARRIER_BIT]).

(** [execHistoConsolidate] in the three parts its comments name. *)

(** "Set up data": up to the upload of the reset extrema buffer. *)
Definition execHistoConsolidate_setUpData : M unit :=
  call (makeCurrent HistogramView) ;;
  call (glUseProgram histoConsolidateProg) ;;
  binCount <- getR m_histogramBinCount ;;
  histogram <- getR m_histogram ;;
  (if histogram =? GLuint_max then
     name <- genName glGenTextures ;;
     modifyR (set_m_histogram name) ;;
     call (glBindTexture GL_TEXTURE_1D name) ;;
     call (glTexStorage1D binCount)
   else
     call (glBindTexture GL_TEXTURE_1D histogram)) ;;
  histogramData <- getR m_histogramData ;;
  when (negb (Z.of_nat (length histogramData) =? binCount))
    (modifyR (set_m_histogramData (resize histogramData (Z.to_nat binCount) 0))) ;;
  histogramData <- getR m_histogramData ;;
  modifyR (set_m_histogramData (fill histogramData 0)) ;;
  histogramData <- getR m_histogramData ;;
  call (glTexSubImage1D binCount histogramData) ;;
  call (glUniform1ui (Loc histoConsolidateProg binCountLoc) binCount) ;;
  prog <- getR m_histoConsolidateProg ;;
  call (glUniform1ui (Loc histoConsolidateProg invocationBinCountLoc)
          (ceil_div binCount (liCount prog))) ;;
  call (glBindBuffer GL_SHADER_STORAGE_BUFFER extremaBuff) ;;
  modifyR (on_histoConsolidateProg (set_extrema (GLuint_max, 0))) ;;
  call (glBufferSubData_extrema GLuint_max 0).

(** "Execute": the dispatch and the barrier. *)
Definition execHistoConsolidate_execute : M unit :=
  call (glBindTexture GL_TEXTURE_2D_ARRAY 0) ;;
  histogramBlocks <- getR m_histogramBlocks ;;
  call (glBindImageTexture (Loc histoConsolidateProg blocksLoc) histogramBlocks
          true GL_READ_ONLY) ;;
  call (glBindTexture GL_TEXTURE_1D 0) ;;
  histogram <- getR m_histogram ;;
  call (glBindImageTexture (Loc histoConsolidateProg histogramLoc) histogram
          false GL_READ_WRITE) ;;
  call (glBindBuffer GL_SHADER_STORAGE_BUFFER buffer_0) ;;
  call (glBindBufferBase (Loc histoConsolidateProg extremaLoc) extremaBuff) ;;
  calc <- getR m_histoCalcProg ;;
  call (glDispatchCompute (wgCountPerAxis calc) (wgCountPerAxis calc) 1) ;;
  call (glMemoryBarrier
          [GL_SHADER_IMAGE_ACCESS_BARRIER_BIT; GL_BUFFER_UPDATE_BARRIER_BIT]).

(** "Retrieve results": [glGetTexImage] writes the texels over the
    elements of [m_histogramData] (the vector keeps its size), and
    [glGetBufferSubData] fills the extrema pair. *)
Definition execHistoConsolidate_retrieveResults (env : Env) : M unit :=
  histogram <- getR m_histogram ;;
  call (glBindTexture GL_TEXTURE_1D histogram) ;;
  call (glGetTexImage GL_TEXTURE_1D) ;;
  histogramData <- getR m_histogramData ;;
  modifyR (set_m_histogramData
             (map (histogramTexels env) (seq 0 (length histogramData)))) ;;
  call (glBindBuffer GL_SHADER_STORAGE_BUFFER extremaBuff) ;;
  call (glGetBufferSubData extremaBuff) ;;
  modifyR (on_histoConsolidateProg (set_extrema (extremaBuffer env))).

Definition execHistoConsolidate (env : Env) : M unit :=
  execHistoConsolidate_setUpData ;;
  execHistoConsolidate_execute ;;
  execHistoConsolidate_retrieveResults env.

(** The projection matrix of [execImageDraw] is single-precision
    arithmetic on the widget's view size, zoom and pan; only its upload is
    recorded. *)
Definition execImageDraw (env : Env) : M unit :=
  call (makeCurrent ImageView) ;;
  call (glUseProgram imageDrawProg) ;;
  call (updateGlViewportSize ImageView) ;;
  call glClearColor ;;
  call glClearDepth ;;
  call glClear ;;
  imageData <- getR m_imageData ;;
  when (negb (empty imageData))
    (let highlightPointer := m_highlightPointer (imageWidget env) in
     let pointerIsOnImagePixel := m_pointerIsOnImagePixel (imageWidget env) in
     call (glUniformMatrix4fv (Loc imageDrawProg projectionModelViewMatrixLoc)) ;;
     let gtpEnabled := m_gtpEnabled (histogramWidget env) in
     let gtpAutoMinMaxEnabled := m_gtpAutoMinMaxEnabled (histogramWidget env) in
     let gtpGamma' := m_gtpGamma (histogramWidget env) in
     minmax <-
       (if gtpAutoMinMaxEnabled then
          future <- getR m_imageExtremaFuture ;;
          match future with
          | Some f =>
              call (future_get f) ;;
              modifyR (set_m_imageExtremaFuture None) ;;
              modifyR (set_m_imageExtrema (Future_get f)) ;;
              call (newImageExtrema (fst (Future_get f)) (snd (Future_get f)))
          | None => ret tt
          end ;;
          getR m_imageExtrema
        else
          ret (m_gtpMin (histogramWidget env), m_gtpMax (histogramWidget env))) ;;
     let gtpMin' := fst minmax in
     let gtpMax' := snd minmax in
     sub <-
       (if highlightPointer && pointerIsOnImagePixel then
          let wantedHighlightCoord' := computedHighlightCoord env in
          prog <- getR m_imageDrawProg ;;
          when (IEEE32.ne2 wantedHighlightCoord' (wantedHighlightCoord prog))
            (call (glBindBuffer GL_SHADER_STORAGE_BUFFER highlightCoordsBuff) ;;
             call (glBufferSubData_highlight wantedHighlightCoord') ;;
             modifyR (on_imageDrawProg
                        (set_wantedHighlightCoord wantedHighlightCoord'))) ;;
          call (glBindBuffer GL_SHADER_STORAGE_BUFFER buffer_0) ;;
          call (glBindBufferBase (Loc imageDrawProg highlightCoordsLoc)
                  highlightCoordsBuff) ;;
          ret (if gtpEnabled
               then imagePanelGammaTransformColorerHighlightIdx
               else imagePanelPassthroughColorerHighlightIdx)
        else
          ret (if gtpEnabled
               then imagePanelGammaTransformColorerIdx
               else imagePanelPassthroughColorerIdx)) ;;
     call (glUniformSubroutinesuiv sub) ;;
     modifyR (on_imageDrawProg (set_gtpEnabled gtpEnabled)) ;;
     prog <- getR m_imageDrawProg ;;
     when (negb (gtpMin' =? gtpMin prog))
       (call (glUniform1f (Loc imageDrawProg gtpMinLoc) (float_of_integer gtpMin')) ;;
        modifyR (on_imageDrawProg (set_gtpMin gtpMin'))) ;;
     prog <- getR m_imageDrawProg ;;
     when (negb (gtpMax' =? gtpMax prog))
       (call (glUniform1f (Loc imageDrawProg gtpMaxLoc) (float_of_integer gtpMax')) ;;
        modifyR (on_imageDrawProg (set_gtpMax gtpMax'))) ;;
     prog <- getR m_imageDrawProg ;;
     when (IEEE32.ne gtpGamma' (gtpGamma prog))
       (call (glUniform1f (Loc imageDrawProg gtpGammaLoc) (float_value gtpGamma')) ;;
        modifyR (on_imageDrawProg (set_gtpGamma gtpGamma'))) ;;
     call (glBindVertexArray quadVao) ;;
     image <- getR m_image ;;
     call (glBindTexture GL_TEXTURE_2D image) ;;
     call (glDrawArrays GL_TRIANGLE_FAN 0 4) ;;
     when (highlightPointer && pointerIsOnImagePixel)
       (call (glMemoryBarrier [GL_BUFFER_UPDATE_BARRIER_BIT]) ;;
        call (glBindBuffer GL_SHADER_STORAGE_BUFFER highlightCoordsBuff) ;;
        call (glGetBufferSubData highlightCoordsBuff) ;;
        modifyR (on_imageDrawProg
                   (set_actualHighlightCoord (highlightBuffer env))))) ;;
  call (swapBuffers ImageView).

Definition execHistoDraw (env : Env) : M unit :=
  call (makeCurrent HistogramView) ;;
  call (glUseProgram histoDrawProg) ;;
  call (updateGlViewportSize HistogramView) ;;
  call glClearColor ;;
  call glClearDepth ;;
  call glClear ;;
  imageData <- getR m_imageData ;;
  when (negb (empty imageData))
    (let gammaGamma' := m_gtpGammaGamma (histogramWidget env) in
     prog <- getR m_histoDrawProg ;;
     when (IEEE32.ne gammaGamma' (gammaGamma prog))
       (call (glUniform1f (Loc histoDrawProg gammaGammaLoc) (float_value gammaGamma')) ;;
        modifyR (on_histoDrawProg (set_gammaGamma gammaGamma'))) ;;
     binCount <- getR m_histogramBinCount ;;
     call (glUniform1ui (Loc histoDrawProg binCountLoc) binCount) ;;
     consolidate <- getR m_histoConsolidateProg ;;
     call (glUniform1f (Loc histoDrawProg binScaleLoc)
             (float_of_integer (snd (extrema consolidate)))) ;;
     call (glUniformMatrix4fv (Loc histoDrawProg projectionModelViewMatrixLoc)) ;;
     prog <- getR m_histoDrawProg ;;
     (if pointVao prog =? GLuint_max then
        vao <- genName glGenVertexArrays ;;
        modifyR (on_histoDrawProg (set_pointVao vao)) ;;
        call (glBindVertexArray (vertex_array vao)) ;;
        buff <- genName glGenBuffers ;;
        modifyR (on_histoDrawProg (set_pointVaoBuff buff)) ;;
        call (glBindBuffer GL_ARRAY_BUFFER (buffer_name buff)) ;;
        let points := map Z.of_nat (seq 0 (Z.to_nat binCount)) in
        call (glBufferData_points points) ;;
        call (glEnableVertexAttribArray (Loc histoDrawProg binIndexLoc)) ;;
        call (glVertexAttribPointer (Loc histoDrawProg binIndexLoc)) ;;
        call (glBindBuffer GL_ARRAY_BUFFER buffer_0)
      else
        call (glBindVertexArray (vertex_array (pointVao prog)))) ;;
     call (glBindTexture GL_TEXTURE_1D 0) ;;
     histogram <- getR m_histogram ;;
     call (glBindImageTexture (Loc histoDrawProg histogramLoc) histogram true
             GL_READ_ONLY) ;;
     call (glDrawArrays GL_LINE_STRIP 0 binCount) ;;
     call (glPointSize 4) ;;
     call (glDrawArrays GL_POINTS 0 binCount)) ;;
  call (swapBuffers HistogramView).

(** ** Slots *)

Definition threadInitSlot (init : InitEnv) : M unit :=
  threadInited <- getR m_threadInited ;;
  when threadInited
    (throw "Renderer::threadInit(): Called multiple times for one Renderer instance.") ;;
  modifyR (set_m_threadInited true) ;;
  makeContexts init ;;
  makeGlfs init ;;
  buildGlProgs.

Definition updateViewSlot (view : View) (env : Env) : M unit :=
  match view with
  | ImageView =>
      pending <- getR m_imageViewUpdatePending ;;
      when pending
        (modifyR (set_m_imageViewUpdatePending false) ;;
         execImageDraw env)
  | HistogramView =>
      pending <- getR m_histogramViewUpdatePending ;;
      when pending
        (modifyR (set_m_histogramViewUpdatePending false) ;;
         execHistoDraw env)
  | OtherView _ => ret tt
  end.

(** [newImageSlot], first statement under the lock: tearing down what the
    previous image left. *)
Definition newImageSlot_tearDown (imageData : ImageData) (imageSize : QSize)
    : M unit :=
  m_imageData' <- getR m_imageData ;;
  m_imageSize' <- getR m_imageSize ;;
  when (negb (empty m_imageData') &&
        (empty imageData || QSize_neq m_imageSize' imageSize))
    (delImage ;;
     delHistogramBlocks).

(** [newImageSlot], second statement: taking over the new image
    ([m_imageAspectRatio] apart). *)
Definition newImageSlot_load (imageData : ImageData) (imageSize : QSize)
    (filter : bool) (env : Env) : M unit :=
  when (negb (empty imageData))
    (modifyR (set_m_imageData imageData) ;;
     modifyR (set_m_imageSize imageSize) ;;
     image <- getR m_image ;;
     (if image =? GLuint_max then
        name <- genName glGenTextures ;;
        modifyR (set_m_image name) ;;
        call (glBindTexture GL_TEXTURE_2D name) ;;
        call (glTexStorage2D (width imageSize) (height imageSize)) ;;
        call (glTexParameteri GL_TEXTURE_WRAP_S GL_CLAMP_TO_EDGE) ;;
        call (glTexParameteri GL_TEXTURE_WRAP_T GL_CLAMP_TO_EDGE)
      else
        call (glBindTexture GL_TEXTURE_2D image)) ;;
     call (glTexSubImage2D (width imageSize) (height imageSize) imageData) ;;
     let filterType := if filter then GL_LINEAR else GL_NEAREST in
     call (glTexParameteri GL_TEXTURE_MIN_FILTER filterType) ;;
     call (glTexParameteri GL_TEXTURE_MAG_FILTER filterType) ;;
     execHistoCalc ;;
     execHistoConsolidate env).

Definition newImageSlot (imageData : ImageData) (imageSize : QSize)
    (filter : bool) (env : Env) : M unit :=
  call (makeCurrent ImageView) ;;
  newImageSlot_tearDown imageData imageSize ;;
  newImageSlot_load imageData imageSize filter env ;;
  execImageDraw env ;;
  execHistoDraw env.

(** [setHistogramBinCountSlot], when the count differs: first the old
    resources go and the new count is adopted ... *)
Definition setHistogramBinCountSlot_discard (histogramBinCount : Z) : M unit :=
  call (makeCurrent HistogramView) ;;
  delHistogramBlocks ;;
  delHistogram ;;
  modifyR (set_m_histogramBinCount histogramBinCount).

(** ... then, with an image loaded, the histogram is computed anew. *)
Definition setHistogramBinCountSlot_recompute (env : Env) : M unit :=
  imageData <- getR m_imageData ;;
  when (negb (empty imageData))
    (execHistoCalc ;;
     execHistoConsolidate env ;;
     execHistoDraw env).

Definition setHistogramBinCountSlot (histogramBinCount : Z) (env : Env)
    : M unit :=
  binCount <- getR m_histogramBinCount ;;
  when (negb (histogramBinCount =? binCount))
    (setHistogramBinCountSlot_discard histogramBinCount ;;
     setHistogramBinCountSlot_recompute env).

(** ** The two threads together *)

(** The slot a queued message invokes. *)
Definition slot (m : Message) (env : Env) : M unit :=
  match m with
  | _updateView view => updateViewSlot view env
  | _newImage imageData imageSize filter =>
      newImageSlot imageData imageSize filter env
  | _setHistogramBinCount histogramBinCount =>
      setHistogramBinCountSlot histogramBinCount env
  end.

(** One turn of the renderer thread's event loop: the oldest message is
    taken off the queue and its slot runs. *)
Definition deliver (env : Env) : M unit :=
  fun w =>
    match eventQueue w with
    | [] => (w, returned tt)
    | m :: rest => slot m env (set_eventQueue rest w)
    end.

(** What can happen to a renderer: a request on the caller's thread, the
    start-up of its thread, or the delivery of one queued message. *)
Inductive Event :=
| request_updateView (view : View)
| request_showImage (imageData : ImageData) (imageSize : QSize) (filter : bool)
| request_setHistogramBinCount (histogramBinCount : Z)
| threadInit (init : InitEnv)
| delivery (env : Env).

Definition perform (e : Event) : M unit :=
  match e with
  | request_updateView view => updateView view
  | request_showImage imageData imageSize filter =>
      showImage imageData imageSize filter
  | request_setHistogramBinCount histogramBinCount =>
      setHistogramBinCount histogramBinCount
  | threadInit init => threadInitSlot init
  | delivery env => deliver env
  end.

(** The world after an event; an exception goes to whoever made the call,
    the world stays as the method left it. *)
Definition step (w : World) (e : Event) : World := fst (perform e w).

Definition run (events : list Event) (w : World) : World :=
  fold_left step events w.

(** The worlds a renderer can be in: those some sequence of events leads to
    from a freshly constructed renderer. *)
Inductive reachable : World -> Prop :=
| reachable_new imageViewContext histogramViewContext
    calc consolidate imageDraw histoDraw :
    reachable (World_new imageViewContext histogramViewContext
                 calc consolidate imageDraw histoDraw)
| reachable_step w e : reachable w -> reachable (step w e).

(** ** Observing a world

    A property is seldom about the whole world: it is about some members
    of the renderer and some of the calls of the log, together with the
    event queue and the number of tasks launched.  [observe F sel] is that
    part of a world, for the members [F] and the calls that [sel] selects. *)

Definition observe {X} (F : Renderer -> X) (sel : Call -> bool) (w : World)
    : X * list Call * list Message * nat :=
  (F (renderer w), filter sel (calls w), eventQueue w, asyncLaunched w).

(** An action returns normally from the world [w]. *)
Definition returns {A} (m : M A) (w : World) : Prop :=
  exists a, snd (m w) = returned a.

(** An action that returns normally and leaves the observed part alone. *)
Definition preserves {X A} (F : Renderer -> X) (sel : Call -> bool) (m : M A)
    : Prop :=
  forall w, returns m w /\ observe F sel (fst (m w)) = observe F sel w.

(** ** Pending draws *)

(** The view a pending flag belongs to. *)
Definition view_of (p : UpdatePending) : View :=
  match p with
  | addr_m_imageViewUpdatePending => ImageView
  | addr_m_histogramViewUpdatePending => HistogramView
  end.

(** Is the message a queued draw of the view whose flag is [p]? *)
Definition draws (p : UpdatePending) (m : Message) : bool :=
  match m, p with
  | _updateView ImageView, addr_m_imageViewUpdatePending => true
  | _updateView HistogramView, addr_m_histogramViewUpdatePending => true
  | _, _ => false
  end.

(** The number of draw messages for that view waiting in the queue. *)
Definition draws_pending (p : UpdatePending) (w : World) : nat :=
  length (filter (draws p) (eventQueue w)).

(** The members that decide whether a redraw is queued. *)
Definition control (r : Renderer) : bool * bool * bool * bool :=
  (m_imageViewUpdatePending r, m_histogramViewUpdatePending r,
   m_imageView_m_context r, m_histogramView_m_context r).

Definition no_call (c : Call) : bool := false.

(** The debounce invariant: a view has one draw message in the queue when its
    flag is set and none when it is clear. *)
Definition debounced (w : World) : Prop :=
  forall p, draws_pending p w = if deref p (renderer w) then 1%nat else 0%nat.

(** ** Sample values for the examples

    Program objects as small as they can be (one work group per axis, one
    invocation per group), widgets with the gamma transform and its
    automatic range switched on, and a GPU that reports two samples in the
    first bin and none elsewhere. *)
Module Sample.

Definition calc : HistoCalcProg := mkHistoCalcProg 1 1.
Definition consolidate : HistoConsolidateProg := mkHistoConsolidateProg 1 (0, 0).
Definition imageDraw : ImageDrawProg :=
  mkImageDrawProg false 0 0 0 (0, 0) (0, 0).
Definition histoDraw : HistoDrawProg :=
  mkHistoDrawProg 0 GLuint_max GLuint_max.

Definition world : World :=
  World_new false false calc consolidate imageDraw histoDraw.

Definition widgets (gamma : GLfloat) : HistogramWidget :=
  mkHistogramWidget true true 0 0 gamma IEEE32.one.

Definition env (gamma : GLfloat) : Env :=
  mkEnv (mkImageWidget false false) (widgets gamma) (0, 0)
    (fun bin => match bin with O => 2 | S _ => 0 end) (2, 2) (0, 0).

Definition init : InitEnv := mkInitEnv true true true true.

End Sample.

(** ** Calls of interest in the log *)

(** No member at all: an observation of calls only. *)
Definition no_member (r : Renderer) : unit := tt.

Definition is_glDeleteTextures (c : Call) : bool :=
  match c with glDeleteTextures _ => true | _ => false end.

(** The texture names deleted so far, oldest first. *)
Definition deletedTextures (cs : list Call) : list Z :=
  flat_map (fun c => match c with glDeleteTextures name => [name] | _ => [] end)
    cs.

(** The members the histogram buffer depends on. *)
Definition histogramMembers (r : Renderer) : HistogramData * Z * ImageData :=
  (m_histogramData r, m_histogramBinCount r, m_imageData r).

(** ** What a draw of the image view reads and writes

    The members that decide the uniform uploads of [execImageDraw] and the
    use of the extrema future, and the calls that are those uploads or that
    use. *)
Definition drawMembers (r : Renderer)
    : Z * Z * GLfloat * ImageData * option Future * (Z * Z) :=
  (gtpMin (m_imageDrawProg r), gtpMax (m_imageDrawProg r),
   gtpGamma (m_imageDrawProg r),
   m_imageData r, m_imageExtremaFuture r, m_imageExtrema r).

Definition drawCalls (c : Call) : bool :=
  match c with
  | glUniform1f (Loc imageDrawProg _) _ => true
  | future_get _ => true
  | _ => false
  end.

(** The extrema future as [execImageDraw] leaves it, the extrema pair it
    leaves, and the minimum and maximum it goes on with: with the automatic
    range on, a valid future is consulted, once, and the extrema pair is the
    range; with it off, the range is the widget's. *)
Definition futureAfterDraw (env : Env) (future : option Future)
    : option Future :=
  if m_gtpAutoMinMaxEnabled (histogramWidget env) then None else future.

Definition extremaAfterDraw (env : Env) (future : option Future)
    (imageExtrema : Z * Z) : Z * Z :=
  if m_gtpAutoMinMaxEnabled (histogramWidget env) then
    match future with
    | Some f => Future_get f
    | None => imageExtrema
    end
  else imageExtrema.

Definition rangeOfDraw (env : Env) (future : option Future)
    (imageExtrema : Z * Z) : Z * Z :=
  if m_gtpAutoMinMaxEnabled (histogramWidget env)
  then extremaAfterDraw env future imageExtrema
  else (m_gtpMin (histogramWidget env), m_gtpMax (histogramWidget env)).

Definition consultedByDraw (env : Env) (future : option Future) : list Call :=
  if m_gtpAutoMinMaxEnabled (histogramWidget env) then
    match future with
    | Some f => [future_get f]
    | None => []
    end
  else [].

(** The upload of one integer uniform, made when the value differs from the
    cached one. *)
Definition integerUpload (name : LocationName) (value cached : Z) : list Call :=
  if negb (value =? cached)
  then [glUniform1f (Loc imageDrawProg name) (float_of_integer value)]
  else [].

(** The upload of the gamma uniform, made when [!=] holds. *)
Definition gammaUpload (value cached : GLfloat) : list Call :=
  if IEEE32.ne value cached
  then [glUniform1f (Loc imageDrawProg gtpGammaLoc) (float_value value)]
  else [].

(** What [execImageDraw] does to the observed part of the world
    ([execImageDraw_observed_correct] below). *)
Definition execImageDraw_observed (env : Env)
    (o : Z * Z * GLfloat * ImageData * option Future * (Z * Z) *
         list Call * list Message * nat)
    : Z * Z * GLfloat * ImageData * option Future * (Z * Z) *
      list Call * list Message * nat :=
  let '(cachedMin, cachedMax, cachedGamma, imageData, future, imageExtrema,
        log, queue, launched) := o in
  if empty imageData then o
  else
    let range := rangeOfDraw env future imageExtrema in
    let gamma := m_gtpGamma (histogramWidget env) in
    (if negb (fst range =? cachedMin) then fst range else cachedMin,
     if negb (snd range =? cachedMax) then snd range else cachedMax,
     if IEEE32.ne gamma cachedGamma then gamma else cachedGamma,
     imageData,
     futureAfterDraw env future,
     extremaAfterDraw env future imageExtrema,
     log ++ consultedByDraw env future
         ++ integerUpload gtpMinLoc (fst range) cachedMin
         ++ integerUpload gtpMaxLoc (snd range) cachedMax
         ++ gammaUpload gamma cachedGamma,
     queue, launched).

(** The values uploaded so far to the three uniforms of the image-draw
    program that [execImageDraw] caches, oldest first. *)
Definition uploadsOf (pick : Call -> list FloatArg) (cs : list Call)
    : list FloatArg :=
  flat_map pick cs.

Definition gammaUploads : list Call -> list FloatArg :=
  uploadsOf (fun c => match c with
                      | glUniform1f (Loc imageDrawProg gtpGammaLoc) v => [v]
                      | _ => []
                      end).

Definition minUploads : list Call -> list FloatArg :=
  uploadsOf (fun c => match c with
                      | glUniform1f (Loc imageDrawProg gtpMinLoc) v => [v]
                      | _ => []
                      end).

Definition maxUploads : list Call -> list FloatArg :=
  uploadsOf (fun c => match c with
                      | glUniform1f (Loc imageDrawProg gtpMaxLoc) v => [v]
                      | _ => []
                      end).

(** The value a uniform has on the GPU: the last one uploaded, or the one
    it had before any upload. *)
Definition boundValue (initial : FloatArg) (uploads : list FloatArg)
    : FloatArg :=
  last uploads initial.

(** ** The extrema future *)

(** The members the extrema computation lives in. *)
Definition extremaMembers (r : Renderer) : option Future * (Z * Z) :=
  (m_imageExtremaFuture r, m_imageExtrema r).

Definition is_future_get (c : Call) : bool :=
  match c with future_get _ => true | _ => false end.

(** The futures consulted so far, oldest first. *)
Definition consulted (cs : list Call) : list Future :=
  flat_map (fun c => match c with future_get f => [f] | _ => [] end) cs.

(** What can happen to the extrema computation between two worlds while the
    renderer thread works: nothing is launched; either no future is
    consulted, the extrema pair stays and the future stays or becomes
    invalid, or the valid future is consulted, becomes invalid and its
    result becomes the extrema pair. *)
Definition future_step (w w' : World) : Prop :=
  asyncLaunched w' = asyncLaunched w /\
  ((consulted (calls w') = consulted (calls w) /\
    m_imageExtrema (renderer w') = m_imageExtrema (renderer w) /\
    (m_imageExtremaFuture (renderer w') = m_imageExtremaFuture (renderer w) \/
     m_imageExtremaFuture (renderer w') = None)) \/
   (exists f,
       m_imageExtremaFuture (renderer w) = Some f /\
       m_imageExtremaFuture (renderer w') = None /\
       consulted (calls w') = consulted (calls w) ++ [f] /\
       m_imageExtrema (renderer w') = Future_get f)).

(** Worlds that agree on what is observed of the extrema computation. *)
Definition same_extrema (w w' : World) : Prop :=
  asyncLaunched w' = asyncLaunched w /\
  consulted (calls w') = consulted (calls w) /\
  m_imageExtrema (renderer w') = m_imageExtrema (renderer w) /\
  m_imageExtremaFuture (renderer w') = m_imageExtremaFuture (renderer w).

(** A future launched after [n] launches, for an image that one of the
    events asked to show. *)
Definition launched_since (n : nat) (events : list Event) (f : Future) : Prop :=
  (n <= task_id f)%nat /\
  exists imageSize filter,
    In (request_showImage (task_arg f) imageSize filter) events.

(** The state of the extrema computation after some events, relative to the
    world [w0] they started from: the valid future, if any, and the futures
    consulted since are all of those events, and the extrema pair is the
    result of the last one consulted, or still the pair of [w0]. *)
Definition extrema_since (w0 : World) (events : list Event) (w : World)
    : Prop :=
  (asyncLaunched w0 <= asyncLaunched w)%nat /\
  (forall f, m_imageExtremaFuture (renderer w) = Some f ->
             launched_since (asyncLaunched w0) events f) /\
  exists new,
    consulted (calls w) = consulted (calls w0) ++ new /\
    Forall (launched_since (asyncLaunched w0) events) new /\
    m_imageExtrema (renderer w) =
      last (map Future_get new) (m_imageExtrema (renderer w0)).

(** * Properties *)

(** ** The logic of actions *)

Section Logic.

Context {X : Type} (F : Renderer -> X) (sel : Call -> bool).

Lemma observe_eq (w w' : World) :
  observe F sel w = observe F sel w' ->
  F (renderer w) = F (renderer w') /\
  filter sel (calls w) = filter sel (calls w') /\
  eventQueue w = eventQueue w' /\
  asyncLaunched w = asyncLaunched w'.
Proof.
  intros H. unfold observe in H.
  repeat split.
  - exact (f_equal (fun o => fst (fst (fst o))) H).
  - exact (f_equal (fun o => snd (fst (fst o))) H).
  - exact (f_equal (fun o => snd (fst o)) H).
  - exact (f_equal snd H).
Qed.

Lemma preserves_ret {A} (a : A) : preserves F sel (ret a).
Proof. intros w. split; [now exists a | reflexivity]. Qed.

Lemma preserves_bind {A B} (m : M A) (k : A -> M B) :
  preserves F sel m ->
  (forall a, preserves F sel (k a)) ->
  preserves F sel (bind m k).
Proof.
  intros Hm Hk w.
  destruct (Hm w) as [[a Ha] Hobs].
  unfold bind, returns.
  destruct (m w) as [w' o]; simpl in Ha, Hobs; subst o.
  destruct (Hk a w') as [Hr Hobs'].
  split; [exact Hr | congruence].
Qed.

Lemma preserves_getR {A} (member : Renderer -> A) :
  preserves F sel (getR member).
Proof. intros w. split; [now eexists | reflexivity]. Qed.

Lemma preserves_modifyR (f : Renderer -> Renderer) :
  (forall r, F (f r) = F r) ->
  preserves F sel (modifyR f).
Proof.
  intros Hf w. split; [now exists tt|].
  unfold observe; simpl. now rewrite Hf.
Qed.

Lemma preserves_call (c : Call) :
  sel c = false ->
  preserves F sel (call c).
Proof.
  intros Hc w. split; [now exists tt|].
  unfold observe; simpl.
  rewrite filter_app; simpl. rewrite Hc. now rewrite app_nil_r.
Qed.

Lemma preserves_genName (gen : Z -> Call) :
  (forall n, sel (gen n) = false) ->
  preserves F sel (genName gen).
Proof.
  intros Hc w. split; [now eexists|].
  unfold observe; simpl.
  rewrite filter_app; simpl. rewrite Hc. now rewrite app_nil_r.
Qed.

Lemma preserves_when (c : bool) (body : M unit) :
  preserves F sel body ->
  preserves F sel (when c body).
Proof. destruct c; [trivial | intros _; apply preserves_ret]. Qed.

End Logic.

(** Frame steps, over the structure of an action. *)
Ltac preserves_step :=
  lazymatch goal with
  | |- preserves _ _ (bind _ _) => apply preserves_bind; [|intro]
  | |- preserves _ _ (ret _) => apply preserves_ret
  | |- preserves _ _ (getR _) => apply preserves_getR
  | |- preserves _ _ (when _ _) => apply preserves_when
  | |- preserves _ _ (call _) => apply preserves_call; reflexivity
  | |- preserves _ _ (modifyR _) => apply preserves_modifyR; intro; reflexivity
  | |- preserves _ _ (genName _) => apply preserves_genName; intro; reflexivity
  | |- preserves _ _ (if ?c then _ else _) => destruct c
  | |- preserves _ _ (match ?x with _ => _ end) => destruct x
  | |- preserves _ _ (let _ := _ in _) => cbv zeta
  end.

Ltac preserves_tac := repeat first [assumption | preserves_step].

Create HintDb frames.

Ltac frame_tac := repeat first [assumption | solve [auto with frames] | preserves_step].

(** ** The GPU work leaves the redraw bookkeeping alone *)

Local Notation "'kept' m" := (preserves control no_call m) (at level 10, m at level 9).

Lemma delImage_control : kept delImage.
Proof. unfold delImage. frame_tac. Qed.

Lemma delHistogramBlocks_control : kept delHistogramBlocks.
Proof. unfold delHistogramBlocks. frame_tac. Qed.

Lemma delHistogram_control : kept delHistogram.
Proof. unfold delHistogram. frame_tac. Qed.

Lemma execHistoCalc_control : kept execHistoCalc.
Proof. unfold execHistoCalc. frame_tac. Qed.

Lemma execHistoConsolidate_control env : kept (execHistoConsolidate env).
Proof.
  unfold execHistoConsolidate, execHistoConsolidate_setUpData,
    execHistoConsolidate_execute, execHistoConsolidate_retrieveResults.
  frame_tac.
Qed.

Lemma execImageDraw_control env : kept (execImageDraw env).
Proof. unfold execImageDraw. frame_tac. Qed.

Lemma execHistoDraw_control env : kept (execHistoDraw env).
Proof. unfold execHistoDraw. frame_tac. Qed.

#[local] Hint Resolve delImage_control delHistogramBlocks_control delHistogram_control
  execHistoCalc_control execHistoConsolidate_control execImageDraw_control
  execHistoDraw_control : frames.

Lemma newImageSlot_control imageData imageSize filter env :
  kept (newImageSlot imageData imageSize filter env).
Proof.
  unfold newImageSlot, newImageSlot_tearDown, newImageSlot_load. frame_tac.
Qed.

Lemma setHistogramBinCountSlot_control histogramBinCount env :
  kept (setHistogramBinCountSlot histogramBinCount env).
Proof.
  unfold setHistogramBinCountSlot, setHistogramBinCountSlot_discard,
    setHistogramBinCountSlot_recompute.
  frame_tac.
Qed.

(** What a frame lemma says about the members of [control] and the queue. *)
Lemma kept_control {A} (m : M A) (w : World) :
  kept m ->
  control (renderer (fst (m w))) = control (renderer w) /\
  eventQueue (fst (m w)) = eventQueue w.
Proof.
  intros Hm. destruct (Hm w) as [_ Hobs].
  destruct (observe_eq _ _ _ _ Hobs) as (Hc & _ & Hq & _). now split.
Qed.

Lemma control_deref (r r' : Renderer) (p : UpdatePending) :
  control r = control r' -> deref p r = deref p r'.
Proof.
  unfold control. intros H. inversion H. now destruct p.
Qed.

Lemma control_m_context (r r' : Renderer) (view : View) :
  control r = control r' -> m_context view r = m_context view r'.
Proof.
  unfold control. intros H. inversion H. now destruct view.
Qed.

(** ** updateViewSlot: the flag of the view drawn is cleared, nothing else
    of the bookkeeping moves *)
Lemma updateViewSlot_effect (view : View) (env : Env) (w : World) :
  let w' := fst (updateViewSlot view env w) in
  eventQueue w' = eventQueue w /\
  forall p, deref p (renderer w') =
            if draws p (_updateView view) then false else deref p (renderer w).
Proof.
  destruct view as [| |address]; unfold updateViewSlot, bind, getR; simpl.
  - destruct (m_imageViewUpdatePending (renderer w)) eqn:Hp; simpl.
    + destruct (kept_control (execImageDraw env)
                  (set_renderer (set_m_imageViewUpdatePending false (renderer w)) w)
                  (execImageDraw_control env)) as [Hc Hq].
      split; [exact Hq|].
      intros p. rewrite (control_deref _ _ p Hc). now destruct p.
    + split; [reflexivity|]. intros p. destruct p; simpl; congruence.
  - destruct (m_histogramViewUpdatePending (renderer w)) eqn:Hp; simpl.
    + destruct (kept_control (execHistoDraw env)
                  (set_renderer (set_m_histogramViewUpdatePending false (renderer w)) w)
                  (execHistoDraw_control env)) as [Hc Hq].
      split; [exact Hq|].
      intros p. rewrite (control_deref _ _ p Hc). now destruct p.
    + split; [reflexivity|]. intros p. destruct p; simpl; congruence.
  - split; [reflexivity|]. intros p. now destruct p.
Qed.

(** A delivered message leaves the rest of the queue as it was, and only
    the draw of a view touches a flag: it clears the flag of that view. *)
Lemma slot_effect (m : Message) (env : Env) (w : World) :
  let w' := fst (slot m env w) in
  eventQueue w' = eventQueue w /\
  (forall p, deref p (renderer w') =
             if draws p m then false else deref p (renderer w)) /\
  (forall view, m_context view (renderer w') = m_context view (renderer w)).
Proof.
  destruct m as [view | imageData imageSize filter | histogramBinCount].
  - destruct (updateViewSlot_effect view env w) as [Hq Hp].
    split; [exact Hq|]. split; [exact Hp|].
    intros v. simpl.
    destruct view; unfold updateViewSlot, bind, getR; simpl;
      try reflexivity.
    + destruct (m_imageViewUpdatePending (renderer w)); simpl; [|reflexivity].
      destruct (kept_control (execImageDraw env)
                  (set_renderer (set_m_imageViewUpdatePending false (renderer w)) w)
                  (execImageDraw_control env)) as [Hc _].
      rewrite (control_m_context _ _ v Hc). now destruct v.
    + destruct (m_histogramViewUpdatePending (renderer w)); simpl; [|reflexivity].
      destruct (kept_control (execHistoDraw env)
                  (set_renderer (set_m_histogramViewUpdatePending false (renderer w)) w)
                  (execHistoDraw_control env)) as [Hc _].
      rewrite (control_m_context _ _ v Hc). now destruct v.
  - destruct (kept_control _ w
                (newImageSlot_control imageData imageSize filter env)) as [Hc Hq].
    split; [exact Hq|]. split.
    + intros p. simpl. rewrite (control_deref _ _ p Hc). now destruct p.
    + intros v. exact (control_m_context _ _ v Hc).
  - destruct (kept_control _ w
                (setHistogramBinCountSlot_control histogramBinCount env)) as [Hc Hq].
    split; [exact Hq|]. split.
    + intros p. simpl. rewrite (control_deref _ _ p Hc). now destruct p.
    + intros v. exact (control_m_context _ _ v Hc).
Qed.

(** ** Requests and the redraw bookkeeping *)

Lemma updateView_pending (p : UpdatePending) (w : World) :
  deref p (renderer w) = true ->
  updateView (view_of p) w = (w, returned tt).
Proof.
  intros Hp.
  destruct p; unfold updateView, bind, getR, ret; simpl in *; now rewrite Hp.
Qed.

(** [updateView] either leaves the world alone or, for one of the two
    views whose flag is clear and whose context exists, sets the flag and
    queues one draw. *)
Lemma updateView_effect (view : View) (w : World) :
  let w' := fst (updateView view w) in
  w' = w \/
  exists p, view = view_of p /\
            deref p (renderer w) = false /\
            m_context view (renderer w) = true /\
            w' = set_eventQueue (eventQueue w ++ [_updateView view])
                   (set_renderer (assign p true (renderer w)) w).
Proof.
  destruct view as [| |address]; unfold updateView, bind, getR, ret, throw;
    simpl; [| |now left].
  - destruct (m_imageViewUpdatePending (renderer w)) eqn:Hp;
      destruct (m_imageView_m_context (renderer w)) eqn:Hc; simpl;
      try now left.
    right. exists addr_m_imageViewUpdatePending. simpl. auto.
  - destruct (m_histogramViewUpdatePending (renderer w)) eqn:Hp;
      destruct (m_histogramView_m_context (renderer w)) eqn:Hc; simpl;
      try now left.
    right. exists addr_m_histogramViewUpdatePending. simpl. auto.
Qed.

Lemma showImage_control (imageData : ImageData) (imageSize : QSize)
    (filter : bool) (w : World) :
  let w' := fst (showImage imageData imageSize filter w) in
  control (renderer w') = control (renderer w) /\
  (eventQueue w' = eventQueue w \/
   eventQueue w' = eventQueue w ++ [_newImage imageData imageSize filter]).
Proof.
  unfold showImage, bind, when, std_async, modifyR, emit, throw, ret.
  destruct (empty imageData); simpl.
  - split; [reflexivity | now right].
  - destruct ((width imageSize <=? 0) || (height imageSize <=? 0)); simpl;
      (split; [reflexivity | auto]).
Qed.

Lemma threadInitSlot_control (init : InitEnv) (w : World) :
  let w' := fst (threadInitSlot init w) in
  (forall p, deref p (renderer w') = deref p (renderer w)) /\
  eventQueue w' = eventQueue w.
Proof.
  unfold threadInitSlot, makeContexts, makeGlfs, buildGlProgs,
    bind, getR, when, modifyR, call, throw, ret.
  destruct (m_threadInited (renderer w)); simpl;
    [split; [intros p|]; reflexivity|].
  destruct (imageContextCreated init); simpl;
    [|split; [intros p; now destruct p | reflexivity]].
  destruct (histogramContextCreated init); simpl;
    [|split; [intros p; now destruct p | reflexivity]].
  destruct (functionsRetrieved init); simpl;
    [|split; [intros p; now destruct p | reflexivity]].
  destruct (functionsInitialized init); simpl;
    split; try reflexivity; intros p; now destruct p.
Qed.

Lemma deliver_effect (env : Env) (w : World) :
  let w' := fst (deliver env w) in
  match eventQueue w with
  | [] => w' = w
  | m :: rest =>
      eventQueue w' = rest /\
      (forall p, deref p (renderer w') =
                 if draws p m then false else deref p (renderer w)) /\
      (forall view, m_context view (renderer w') = m_context view (renderer w))
  end.
Proof.
  unfold deliver.
  destruct (eventQueue w) as [|m rest] eqn:Hq; [reflexivity|].
  exact (slot_effect m env (set_eventQueue rest w)).
Qed.

Lemma draws_pending_emit (p : UpdatePending) (w w' : World) (m : Message) :
  eventQueue w' = eventQueue w ++ [m] ->
  draws_pending p w' = (draws_pending p w + if draws p m then 1 else 0)%nat.
Proof.
  intros Hq. unfold draws_pending. rewrite Hq, filter_app, length_app. simpl.
  now destruct (draws p m).
Qed.

Lemma debounced_new imageViewContext histogramViewContext
    calc consolidate imageDraw histoDraw :
  debounced (World_new imageViewContext histogramViewContext
               calc consolidate imageDraw histoDraw).
Proof. intros p. now destruct p. Qed.

Lemma debounced_step (w : World) (e : Event) :
  debounced w -> debounced (step w e).
Proof.
  intros Hw p. specialize (Hw p) as Hp. unfold step.
  destruct e as [view | imageData imageSize filter | histogramBinCount
                | init | env]; simpl.
  - destruct (updateView_effect view w) as [Hsame | (q & Hv & Hq & _ & Hnew)];
      [now rewrite Hsame|].
    rewrite Hnew.
    erewrite draws_pending_emit by reflexivity.
    rewrite Hp, Hv.
    destruct p, q; simpl in *; rewrite ?Hq;
      try reflexivity;
      match goal with |- context [if ?b then _ else _] => destruct b end;
      reflexivity.
  - destruct (showImage_control imageData imageSize filter w) as [Hc Hq].
    rewrite (control_deref _ _ p Hc).
    destruct Hq as [Hq | Hq].
    + unfold draws_pending in *. now rewrite Hq.
    + rewrite (draws_pending_emit p w _ _ Hq), Hp.
      destruct p; simpl; lia.
  - erewrite draws_pending_emit by reflexivity.
    rewrite Hp.
    destruct p; simpl; lia.
  - destruct (threadInitSlot_control init w) as [Hf Hq].
    rewrite Hf. unfold draws_pending in *. now rewrite Hq.
  - pose proof (deliver_effect env w) as He. cbv zeta in He.
    unfold draws_pending in *.
    destruct (eventQueue w) as [|m rest] eqn:Hq; [rewrite He, Hq; exact Hp|].
    destruct He as (Hrest & Hf & _).
    rewrite Hrest, Hf.
    simpl in Hp.
    destruct (draws p m) eqn:Hd.
    + (* the message delivered was this view's draw: it was the only one *)
      simpl in Hp. destruct (deref p (renderer w)); [lia | discriminate].
    + exact Hp.
Qed.

Lemma debounced_reachable (w : World) : reachable w -> debounced w.
Proof.
  induction 1 as [imageViewContext histogramViewContext
                    calc consolidate imageDraw histoDraw | w e _ IH].
  - apply debounced_new.
  - now apply debounced_step.
Qed.

Lemma reachable_run (events : list Event) (w : World) :
  reachable w -> reachable (run events w).
Proof.
  revert w. induction events as [|e events IH]; intros w Hw; simpl;
    [exact Hw | apply IH; now constructor].
Qed.

(** C3: a redraw requested for a view whose flag is already set queues
    nothing (the world is left as it is); in every reachable world at most
    one draw message per view waits in the queue; an event sets a flag only
    if it is the redraw request for that view, made while the flag was clear
    and the view's context existed; the delivery of the queued draw clears
    the flag, and nothing else clears it. *)
Theorem updateView_debounce :
  (forall p w,
      deref p (renderer w) = true ->
      updateView (view_of p) w = (w, returned tt)) /\
  (forall w, reachable w -> forall p, (draws_pending p w <= 1)%nat) /\
  (forall w e p,
      deref p (renderer w) = false ->
      deref p (renderer (step w e)) = true ->
      e = request_updateView (view_of p) /\
      m_context (view_of p) (renderer w) = true) /\
  (forall w env p rest,
      eventQueue w = _updateView (view_of p) :: rest ->
      deref p (renderer (step w (delivery env))) = false) /\
  (forall w e p,
      deref p (renderer w) = true ->
      deref p (renderer (step w e)) = false ->
      exists env rest,
        e = delivery env /\ eventQueue w = _updateView (view_of p) :: rest).
Proof.
  split; [exact updateView_pending|].
  split.
  { intros w Hw p. rewrite (debounced_reachable w Hw p).
    destruct (deref p (renderer w)); lia. }
  split.
  { intros w e p Hclear Hset. unfold step in Hset.
    destruct e as [view | imageData imageSize filter | histogramBinCount
                  | init | env]; simpl in Hset.
    - destruct (updateView_effect view w) as [Hsame | (q & Hv & Hq & Hc & Hnew)].
      + rewrite Hsame in Hset. congruence.
      + rewrite Hnew in Hset. simpl in Hset.
        destruct p, q; simpl in *; subst view; auto; congruence.
    - destruct (showImage_control imageData imageSize filter w) as [Hc _].
      rewrite (control_deref _ _ p Hc) in Hset. congruence.
    - simpl in Hset. congruence.
    - destruct (threadInitSlot_control init w) as [Hf _].
      rewrite Hf in Hset. congruence.
    - pose proof (deliver_effect env w) as He. cbv zeta in He.
      destruct (eventQueue w) as [|m rest]; [rewrite He in Hset; congruence|].
      destruct He as (_ & Hf & _). rewrite Hf in Hset.
      destruct (draws p m); congruence. }
  split.
  { intros w env p rest Hq. unfold step; simpl.
    pose proof (deliver_effect env w) as He. cbv zeta in He.
    rewrite Hq in He. destruct He as (_ & Hf & _).
    rewrite Hf. now destruct p. }
  intros w e p Hset Hclear. unfold step in Hclear.
  destruct e as [view | imageData imageSize filter | histogramBinCount
                | init | env]; simpl in Hclear.
  - destruct (updateView_effect view w) as [Hsame | (q & Hv & Hq & Hc & Hnew)].
    + rewrite Hsame in Hclear. congruence.
    + rewrite Hnew in Hclear. simpl in Hclear.
      destruct p, q; simpl in *; congruence.
  - destruct (showImage_control imageData imageSize filter w) as [Hc _].
    rewrite (control_deref _ _ p Hc) in Hclear. congruence.
  - simpl in Hclear. congruence.
  - destruct (threadInitSlot_control init w) as [Hf _].
    rewrite Hf in Hclear. congruence.
  - exists env.
    pose proof (deliver_effect env w) as He. cbv zeta in He.
    destruct (eventQueue w) as [|m rest]; [rewrite He in Hclear; congruence|].
    exists rest. split; [reflexivity|].
    destruct He as (_ & Hf & _). rewrite Hf in Hclear.
    destruct m as [view | |]; destruct p; simpl in *; try congruence;
      destruct view; simpl in *; congruence.
Qed.

(** The thread is started, a redraw of the image view is requested and
    requested again: the second request finds the flag set. *)
Lemma updateView_debounce_witness :
  let w := run [threadInit Sample.init; request_updateView ImageView]
             Sample.world in
  deref addr_m_imageViewUpdatePending (renderer w) = true /\
  updateView ImageView w = (w, returned tt) /\
  reachable w /\
  (draws_pending addr_m_imageViewUpdatePending w <= 1)%nat /\
  deref addr_m_imageViewUpdatePending
    (renderer (step w (delivery (Sample.env IEEE32.one)))) = false.
Proof.
  intros w.
  assert (Hset : deref addr_m_imageViewUpdatePending (renderer w) = true)
    by (vm_compute; reflexivity).
  assert (Hreach : reachable w)
    by (apply reachable_run; constructor).
  destruct updateView_debounce as (Hsame & Hone & _ & Hclear & _).
  split; [exact Hset|].
  split; [exact (Hsame addr_m_imageViewUpdatePending w Hset)|].
  split; [exact Hreach|].
  split; [exact (Hone w Hreach addr_m_imageViewUpdatePending)|].
  apply (Hclear w (Sample.env IEEE32.one) addr_m_imageViewUpdatePending []).
  vm_compute. reflexivity.
Defined.

(** ** findImageExtrema *)

(** The running minimum is below the value it started from and below every
    sample scanned. *)
Lemma scan_fst_lower_bound (l : list Z) (ret : Z * Z) :
  fst (fold_left scan l ret) <= fst ret /\
  forall x, In x l -> fst (fold_left scan l ret) <= x.
Proof.
  revert ret.
  induction l as [|p l IH]; intros ret; simpl.
  - split; [lia | intros x []].
  - destruct (IH (scan ret p)) as [Hle Hall].
    assert (Hstep : fst (scan ret p) <= fst ret /\ fst (scan ret p) <= p).
    { unfold scan.
      destruct (Z.ltb_spec p (fst ret)); simpl; [lia|].
      destruct (p >? snd ret); simpl; lia. }
    split; [lia|].
    intros x [<- | Hin]; [lia | auto].
Qed.

(** It is the start value or one of the samples. *)
Lemma scan_fst_attained (l : list Z) (ret : Z * Z) :
  fst (fold_left scan l ret) = fst ret \/ In (fst (fold_left scan l ret)) l.
Proof.
  revert ret.
  induction l as [|p l IH]; intros ret; simpl.
  - now left.
  - destruct (IH (scan ret p)) as [Heq | Hin]; [|now right; right].
    rewrite Heq. unfold scan.
    destruct (p <? fst ret); simpl; [right; now left|].
    destruct (p >? snd ret); simpl; now left.
Qed.

(** C8: findImageExtrema [5] is (5,5), findImageExtrema [3,1,4,1,5] is
    (1,5), and a one-sample image yields that sample as both minimum and
    maximum. *)
Theorem findImageExtrema_examples :
  findImageExtrema [5] = (5, 5) /\
  findImageExtrema [3; 1; 4; 1; 5] = (1, 5) /\
  forall p : Z, findImageExtrema [p] = (p, p).
Proof.
  repeat split.
Qed.

(** C2: some sequence of at least two 16-bit samples makes findImageExtrema
    report a maximum strictly below the true maximum: in [5; 3] each sample
    lowers the running minimum, so the else-if never compares it with the
    running maximum, which stays 0.  The true maximum 5 is the first sample:
    the step that scans it records it as the minimum only. *)
Theorem findImageExtrema_undercounts_max :
  exists (l : ImageData) (m : Z),
    (2 <= length l)%nat /\
    Forall is_GLushort l /\
    maximum_of l m /\
    snd (findImageExtrema l) < m /\
    hd 0 l = m /\
    scan (65535, 0) m = (m, 0).
Proof.
  exists [5; 3], 5.
  split; [simpl; lia|].
  split; [repeat constructor; unfold is_GLushort; lia|].
  split.
  - split; [now left|].
    intros x [<- | [<- | []]]; lia.
  - vm_compute. repeat split.
Qed.

(** C10: for a non-empty sequence of 16-bit samples the first component
    returned by findImageExtrema is the true minimum of the sequence. *)
Theorem findImageExtrema_min_correct (l : ImageData) :
  l <> [] ->
  Forall is_GLushort l ->
  minimum_of l (fst (findImageExtrema l)).
Proof.
  intros Hne Hrange.
  unfold findImageExtrema, minimum_of.
  destruct l as [|p [|q l]]; [congruence| |].
  - simpl. split; [now left|].
    intros x [<- | []]; lia.
  - change (length (p :: q :: l) =? 1)%nat with false. cbv iota.
    pose proof (scan_fst_lower_bound (p :: q :: l) (65535, 0)) as [_ Hall].
    split; [|exact Hall].
    destruct (scan_fst_attained (p :: q :: l) (65535, 0)) as [Heq | Hin];
      [|exact Hin].
    simpl fst in Heq at 2.
    (* the running minimum is still 65535: then p itself is 65535 *)
    assert (Hp : is_GLushort p) by now inversion Hrange.
    specialize (Hall p (or_introl eq_refl)).
    unfold is_GLushort in Hp.
    assert (p = fst (fold_left scan (p :: q :: l) (65535, 0))) as <- by lia.
    now left.
Qed.

Lemma findImageExtrema_min_correct_witness :
  [3; 1; 4] <> [] /\ Forall is_GLushort [3; 1; 4] /\
  minimum_of [3; 1; 4] (fst (findImageExtrema [3; 1; 4])).
Proof.
  assert (Hne : [3; 1; 4] <> ([] : ImageData)) by discriminate.
  assert (Hr : Forall is_GLushort [3; 1; 4])
    by (repeat constructor; unfold is_GLushort; lia).
  split; [exact Hne|].
  split; [exact Hr|].
  exact (findImageExtrema_min_correct [3; 1; 4] Hne Hr).
Defined.

(** ** Rejected requests *)

(** C4: updateView for a view that is neither the image view nor the
    histogram view throws, and so does showImage for a non-empty image with
    a width or a height that is not positive; in both cases the caller gets
    the exception from the call itself and the world (flags, image data,
    extrema future, queue) is exactly as before. *)
Theorem rejected_requests_mutate_nothing :
  (forall address w,
      exists what, updateView (OtherView address) w = (w, thrown what)) /\
  (forall imageData imageSize filter w,
      imageData <> [] ->
      width imageSize <= 0 \/ height imageSize <= 0 ->
      exists what, showImage imageData imageSize filter w = (w, thrown what)).
Proof.
  split.
  - intros address w. eexists. reflexivity.
  - intros imageData imageSize filter w Hne Hsize.
    unfold showImage, bind, when, throw.
    destruct imageData as [|p l]; [congruence|]. simpl.
    assert (Hbad : (width imageSize <=? 0) || (height imageSize <=? 0) = true).
    { apply orb_true_iff. destruct Hsize; [left | right]; now apply Z.leb_le. }
    rewrite Hbad. eexists. reflexivity.
Qed.

Lemma rejected_requests_mutate_nothing_witness :
  [1; 2] <> [] /\ (width (mkQSize 0 2) <= 0 \/ height (mkQSize 0 2) <= 0) /\
  exists what,
    showImage [1; 2] (mkQSize 0 2) true Sample.world = (Sample.world, thrown what).
Proof.
  assert (Hne : [1; 2] <> ([] : ImageData)) by discriminate.
  assert (Hsize : width (mkQSize 0 2) <= 0 \/ height (mkQSize 0 2) <= 0)
    by (left; simpl; lia).
  split; [exact Hne|].
  split; [exact Hsize|].
  exact (proj2 rejected_requests_mutate_nothing [1; 2] (mkQSize 0 2) true
           Sample.world Hne Hsize).
Defined.

(** ** What showImage validates *)

(** C1, as stated, fails: three samples for a 2 x 2 image are accepted, the
    future is set and the message is queued. *)
Lemma showImage_accepts_wrong_length :
  let imageData := [1; 2; 3] in
  let imageSize := mkQSize 2 2 in
  let w' := fst (showImage imageData imageSize false Sample.world) in
  Z.of_nat (length imageData) <> width imageSize * height imageSize /\
  snd (showImage imageData imageSize false Sample.world) = returned tt /\
  m_imageExtremaFuture (renderer w') = Some (mkFuture 0 imageData) /\
  eventQueue w' = [_newImage imageData imageSize false].
Proof.
  repeat split. simpl. lia.
Qed.

(** C1, amended: a showImage request with non-empty data is rejected, the
    world left as it was, exactly when the width or the height is not
    positive; with both positive it is accepted whatever the length of the
    data, which is never compared with width * height. *)
Theorem showImage_validates_dimensions_only
    (imageData : ImageData) (imageSize : QSize) (filter : bool) (w : World) :
  imageData <> [] ->
  (width imageSize <= 0 \/ height imageSize <= 0 ->
   exists what, showImage imageData imageSize filter w = (w, thrown what)) /\
  (0 < width imageSize /\ 0 < height imageSize ->
   let w' := fst (showImage imageData imageSize filter w) in
   snd (showImage imageData imageSize filter w) = returned tt /\
   m_imageExtremaFuture (renderer w') =
     Some (mkFuture (asyncLaunched w) imageData) /\
   eventQueue w' = eventQueue w ++ [_newImage imageData imageSize filter]).
Proof.
  intros Hne. split.
  - intros Hsize.
    unfold showImage, bind, when, throw.
    destruct imageData as [|p l]; [congruence|]. simpl.
    assert (Hbad : (width imageSize <=? 0) || (height imageSize <=? 0) = true).
    { apply orb_true_iff. destruct Hsize; [left | right]; now apply Z.leb_le. }
    rewrite Hbad. eexists. reflexivity.
  - intros [Hw Hh].
    unfold showImage, bind, when, throw, std_async, modifyR, emit.
    destruct imageData as [|p l]; [congruence|]. simpl.
    assert (Hok : (width imageSize <=? 0) || (height imageSize <=? 0) = false).
    { apply orb_false_iff. split; apply Z.leb_gt; assumption. }
    rewrite Hok. simpl. auto.
Qed.

Lemma showImage_validates_dimensions_only_witness :
  [1; 2; 3] <> [] /\
  (0 < width (mkQSize 2 2) /\ 0 < height (mkQSize 2 2)) /\
  snd (showImage [1; 2; 3] (mkQSize 2 2) false Sample.world) = returned tt.
Proof.
  assert (Hne : [1; 2; 3] <> ([] : ImageData)) by discriminate.
  assert (Hsize : 0 < width (mkQSize 2 2) /\ 0 < height (mkQSize 2 2))
    by (simpl; lia).
  split; [exact Hne|].
  split; [exact Hsize|].
  exact (proj1 (proj2 (showImage_validates_dimensions_only [1; 2; 3]
                         (mkQSize 2 2) false Sample.world Hne) Hsize)).
Defined.

(** ** newImageSlot and the textures of the previous image *)

Lemma QSize_neq_spec (a b : QSize) : QSize_neq a b = true <-> a <> b.
Proof.
  unfold QSize_neq. destruct a as [wa ha], b as [wb hb]; simpl.
  rewrite orb_true_iff, !negb_true_iff, !Z.eqb_neq.
  split.
  - intros [H | H] E; injection E; intros; congruence.
  - intros H. destruct (Z.eq_dec wa wb) as [-> | Hw]; [|now left].
    right. intros ->. now apply H.
Qed.

Lemma deletedTextures_filter (cs : list Call) :
  deletedTextures (filter is_glDeleteTextures cs) = deletedTextures cs.
Proof.
  induction cs as [|c cs IH]; [reflexivity|].
  destruct c; simpl; try exact IH. now rewrite IH.
Qed.

Lemma deletedTextures_app (cs cs' : list Call) :
  deletedTextures (cs ++ cs') = deletedTextures cs ++ deletedTextures cs'.
Proof. apply flat_map_app. Qed.

(** A frame lemma for the deletions: the action deletes no texture. *)
Lemma kept_deletedTextures {A} (m : M A) (w : World) :
  preserves no_member is_glDeleteTextures m ->
  deletedTextures (calls (fst (m w))) = deletedTextures (calls w).
Proof.
  intros Hm. destruct (Hm w) as [_ Hobs].
  destruct (observe_eq _ _ _ _ Hobs) as (_ & Hc & _ & _).
  now rewrite <- deletedTextures_filter, Hc, deletedTextures_filter.
Qed.

Local Notation "'deletes_nothing' m" :=
  (preserves no_member is_glDeleteTextures m) (at level 10, m at level 9).

Lemma execHistoCalc_deletes_nothing : deletes_nothing execHistoCalc.
Proof. unfold execHistoCalc. frame_tac. Qed.

Lemma execHistoConsolidate_deletes_nothing env :
  deletes_nothing (execHistoConsolidate env).
Proof.
  unfold execHistoConsolidate, execHistoConsolidate_setUpData,
    execHistoConsolidate_execute, execHistoConsolidate_retrieveResults.
  frame_tac.
Qed.

Lemma execImageDraw_deletes_nothing env : deletes_nothing (execImageDraw env).
Proof. unfold execImageDraw. frame_tac. Qed.

Lemma execHistoDraw_deletes_nothing env : deletes_nothing (execHistoDraw env).
Proof. unfold execHistoDraw. frame_tac. Qed.

#[local] Hint Resolve execHistoCalc_deletes_nothing
  execHistoConsolidate_deletes_nothing execImageDraw_deletes_nothing
  execHistoDraw_deletes_nothing : frames.

Lemma newImageSlot_load_deletes_nothing imageData imageSize filter env :
  deletes_nothing (newImageSlot_load imageData imageSize filter env).
Proof. unfold newImageSlot_load. frame_tac. Qed.

(** The tear-down, when its condition holds: both handles end up
    unallocated, and the textures deleted are the allocated ones of the
    two. *)
Lemma tearDown_when_taken (imageData : ImageData) (imageSize : QSize)
    (w : World) :
  negb (empty (m_imageData (renderer w))) &&
    (empty imageData || QSize_neq (m_imageSize (renderer w)) imageSize) = true ->
  let w' := fst (newImageSlot_tearDown imageData imageSize w) in
  returns (newImageSlot_tearDown imageData imageSize) w /\
  m_image (renderer w') = GLuint_max /\
  m_histogramBlocks (renderer w') = GLuint_max /\
  deletedTextures (calls w') =
    deletedTextures (calls w) ++
    (if m_image (renderer w) =? GLuint_max then [] else [m_image (renderer w)]) ++
    (if m_histogramBlocks (renderer w) =? GLuint_max then []
     else [m_histogramBlocks (renderer w)]).
Proof.
  intros Hcond.
  unfold returns, newImageSlot_tearDown, delImage, delHistogramBlocks,
    bind, getR, when, modifyR, call, ret.
  rewrite Hcond.
  destruct (m_image (renderer w) =? GLuint_max) eqn:Hi;
    destruct (m_histogramBlocks (renderer w) =? GLuint_max) eqn:Hb;
    simpl; rewrite ?Hb; simpl;
    rewrite ?deletedTextures_app; simpl;
    rewrite ?app_nil_r, <- ?app_assoc;
    repeat split; try reflexivity; try (now eexists); now apply Z.eqb_eq.
Qed.

(** Sequencing after an action that returns. *)
Lemma bind_returned {A B} (m : M A) (k : A -> M B) (w : World) (a : A) :
  snd (m w) = returned a -> bind m k w = k a (fst (m w)).
Proof.
  unfold bind. destruct (m w) as [w' o]; simpl. now intros ->.
Qed.

Lemma bind_returns {B} (m : M unit) (k : unit -> M B) (w : World) :
  returns m w -> bind m k w = k tt (fst (m w)).
Proof.
  intros [[] Ha]. now apply bind_returned.
Qed.

(** The part of [newImageSlot] after the tear-down deletes no texture. *)
Lemma newImageSlot_rest_deletes_nothing imageData imageSize filter env :
  deletes_nothing (newImageSlot_load imageData imageSize filter env ;;
                   execImageDraw env ;;
                   execHistoDraw env).
Proof.
  pose proof (newImageSlot_load_deletes_nothing imageData imageSize filter env).
  frame_tac.
Qed.

Lemma newImageSlot_tearDown_returns imageData imageSize (w : World) :
  returns (newImageSlot_tearDown imageData imageSize) w.
Proof.
  assert (H : preserves no_member no_call
                (newImageSlot_tearDown imageData imageSize)).
  { unfold newImageSlot_tearDown, delImage, delHistogramBlocks. frame_tac. }
  exact (proj1 (H w)).
Qed.

Lemma newImageSlot_deletedTextures imageData imageSize filter env (w : World) :
  deletedTextures (calls (fst (newImageSlot imageData imageSize filter env w))) =
  deletedTextures
    (calls (fst (newImageSlot_tearDown imageData imageSize
                   (set_calls (calls w ++ [makeCurrent ImageView]) w)))).
Proof.
  unfold newImageSlot.
  rewrite (bind_returns (call (makeCurrent ImageView))) by (now exists tt).
  cbn [call fst].
  set (w0 := set_calls (calls w ++ [makeCurrent ImageView]) w).
  pose proof (newImageSlot_tearDown_returns imageData imageSize w0) as Hret.
  rewrite (bind_returns _ _ w0 Hret).
  apply kept_deletedTextures, newImageSlot_rest_deletes_nothing.
Qed.

(** C7, as stated, fails: an image of the same size replaces the loaded one
    and no texture is deleted; the tear-down leaves the world, both handles
    included, as it was. *)
Lemma newImageSlot_same_size_keeps_textures :
  let env := Sample.env IEEE32.one in
  let w := run [request_showImage [1; 2] (mkQSize 2 1) false; delivery env]
             Sample.world in
  let w' := fst (newImageSlot [7; 9] (mkQSize 2 1) false env w) in
  m_imageData (renderer w) = [1; 2] /\
  m_image (renderer w) = 1 /\
  m_histogramBlocks (renderer w) = 2 /\
  newImageSlot_tearDown [7; 9] (mkQSize 2 1) w = (w, returned tt) /\
  deletedTextures (calls w') = [] /\
  m_imageData (renderer w') = [7; 9] /\
  m_image (renderer w') = 1 /\
  m_histogramBlocks (renderer w') = 2.
Proof.
  vm_compute. repeat split.
Qed.

(** C7, amended: when a previously loaded image is present and the request
    clears it or replaces it by an image of another size, the tear-down of
    newImageSlot leaves the image handle and the block-histogram handle
    unallocated and the slot deletes exactly the allocated ones of the two
    textures; when the new image has the size of the old one, the tear-down
    changes nothing and the slot deletes no texture. *)
Theorem newImageSlot_tears_down_on_clear_or_resize
    (imageData : ImageData) (imageSize : QSize) (filter : bool) (env : Env)
    (w : World) :
  m_imageData (renderer w) <> [] ->
  let w1 := fst (newImageSlot_tearDown imageData imageSize w) in
  let w' := fst (newImageSlot imageData imageSize filter env w) in
  (imageData = [] \/ m_imageSize (renderer w) <> imageSize ->
   m_image (renderer w1) = GLuint_max /\
   m_histogramBlocks (renderer w1) = GLuint_max /\
   deletedTextures (calls w') =
     deletedTextures (calls w) ++
     (if m_image (renderer w) =? GLuint_max then []
      else [m_image (renderer w)]) ++
     (if m_histogramBlocks (renderer w) =? GLuint_max then []
      else [m_histogramBlocks (renderer w)])) /\
  (imageData <> [] /\ m_imageSize (renderer w) = imageSize ->
   newImageSlot_tearDown imageData imageSize w = (w, returned tt) /\
   deletedTextures (calls w') = deletedTextures (calls w)).
Proof.
  intros Hloaded w1 w'.
  assert (Hne : empty (m_imageData (renderer w)) = false)
    by (destruct (m_imageData (renderer w)); [congruence | reflexivity]).
  subst w'. rewrite newImageSlot_deletedTextures.
  set (w0 := set_calls (calls w ++ [makeCurrent ImageView]) w).
  assert (Hcalls : deletedTextures (calls w0) = deletedTextures (calls w))
    by (subst w0; simpl; rewrite deletedTextures_app; simpl;
        now rewrite app_nil_r).
  split.
  - intros Hcase.
    assert (Hcond : forall v : World,
               renderer v = renderer w ->
               negb (empty (m_imageData (renderer v))) &&
               (empty imageData || QSize_neq (m_imageSize (renderer v)) imageSize)
               = true).
    { intros v ->. rewrite Hne. simpl.
      destruct Hcase as [-> | Hsize]; [reflexivity|].
      apply orb_true_iff. right. now apply QSize_neq_spec. }
    destruct (tearDown_when_taken imageData imageSize w (Hcond w eq_refl))
      as (_ & Hi & Hb & _).
    destruct (tearDown_when_taken imageData imageSize w0 (Hcond w0 eq_refl))
      as (_ & _ & _ & Hd).
    split; [exact Hi|]. split; [exact Hb|].
    rewrite Hd, Hcalls. reflexivity.
  - intros [Hdata Hsize].
    assert (Hcond : forall v : World,
               renderer v = renderer w ->
               negb (empty (m_imageData (renderer v))) &&
               (empty imageData || QSize_neq (m_imageSize (renderer v)) imageSize)
               = false).
    { intros v ->. rewrite Hne. simpl.
      destruct imageData; [congruence|]. simpl.
      destruct (QSize_neq (m_imageSize (renderer w)) imageSize) eqn:Hq;
        [|reflexivity].
      now apply QSize_neq_spec in Hq. }
    unfold newImageSlot_tearDown, bind, getR.
    rewrite (Hcond w eq_refl), (Hcond w0 eq_refl). simpl.
    split; [reflexivity | exact Hcalls].
Qed.

(** The loaded 2 x 1 image is cleared: textures 1 and 2 go. *)
Lemma newImageSlot_tears_down_on_clear_or_resize_witness :
  let env := Sample.env IEEE32.one in
  let w := run [request_showImage [1; 2] (mkQSize 2 1) false; delivery env]
             Sample.world in
  m_imageData (renderer w) <> [] /\
  deletedTextures (calls (fst (newImageSlot [] (mkQSize 0 0) false env w))) =
    [1; 2].
Proof.
  intros env w.
  assert (Hloaded : m_imageData (renderer w) <> []) by (vm_compute; discriminate).
  split; [exact Hloaded|].
  destruct (newImageSlot_tears_down_on_clear_or_resize [] (mkQSize 0 0) false
              env w Hloaded) as [Hclear _].
  destruct (Hclear (or_introl eq_refl)) as (_ & _ & Hd).
  rewrite Hd. vm_compute. reflexivity.
Defined.

(** ** setHistogramBinCountSlot and the histogram buffer *)

Lemma bind_assoc {A B C} (m : M A) (k : A -> M B) (h : B -> M C) (w : World) :
  bind (bind m k) h w = bind m (fun a => bind (k a) h) w.
Proof.
  unfold bind. destruct (m w) as [w' [a | what]]; reflexivity.
Qed.

Lemma length_resize {A} (v : list A) (n : nat) (x : A) :
  length (resize v n x) = n.
Proof.
  unfold resize. rewrite length_app, length_firstn, repeat_length. lia.
Qed.

Local Notation "'keeps_histogram' m" :=
  (preserves histogramMembers no_call m) (at level 10, m at level 9).

Lemma execHistoCalc_keeps_histogram : keeps_histogram execHistoCalc.
Proof. unfold execHistoCalc. frame_tac. Qed.

Lemma execHistoConsolidate_execute_keeps_histogram :
  keeps_histogram execHistoConsolidate_execute.
Proof. unfold execHistoConsolidate_execute. frame_tac. Qed.

Lemma execHistoDraw_keeps_histogram env : keeps_histogram (execHistoDraw env).
Proof. unfold execHistoDraw. frame_tac. Qed.

Lemma kept_histogram {A} (m : M A) (w : World) :
  keeps_histogram m ->
  returns m w /\
  m_histogramData (renderer (fst (m w))) = m_histogramData (renderer w) /\
  m_histogramBinCount (renderer (fst (m w))) = m_histogramBinCount (renderer w) /\
  m_imageData (renderer (fst (m w))) = m_imageData (renderer w).
Proof.
  intros Hm. destruct (Hm w) as [Hret Hobs].
  destruct (observe_eq _ _ _ _ Hobs) as (Hh & _).
  unfold histogramMembers in Hh. injection Hh as Hd Hb Hi. auto.
Qed.

(** The discard: both handles unallocated, the new count adopted, the
    allocated textures of the two deleted; the buffer and the image data
    are not touched. *)
Lemma discard_effect (histogramBinCount : Z) (w : World) :
  let w1 := fst (setHistogramBinCountSlot_discard histogramBinCount w) in
  returns (setHistogramBinCountSlot_discard histogramBinCount) w /\
  m_histogramBlocks (renderer w1) = GLuint_max /\
  m_histogram (renderer w1) = GLuint_max /\
  m_histogramBinCount (renderer w1) = histogramBinCount /\
  m_histogramData (renderer w1) = m_histogramData (renderer w) /\
  m_imageData (renderer w1) = m_imageData (renderer w) /\
  deletedTextures (calls w1) =
    deletedTextures (calls w) ++
    (if m_histogramBlocks (renderer w) =? GLuint_max then []
     else [m_histogramBlocks (renderer w)]) ++
    (if m_histogram (renderer w) =? GLuint_max then []
     else [m_histogram (renderer w)]).
Proof.
  unfold returns, setHistogramBinCountSlot_discard, delHistogramBlocks,
    delHistogram, bind, getR, when, modifyR, call, ret.
  cbn.
  destruct (m_histogramBlocks (renderer w) =? GLuint_max) eqn:Hb;
    cbn; destruct (m_histogram (renderer w) =? GLuint_max) eqn:Hh;
    cbn;
    rewrite ?deletedTextures_app; simpl;
    rewrite ?app_nil_r, <- ?app_assoc;
    repeat split; try reflexivity; try (now eexists); now apply Z.eqb_eq.
Qed.

(** "Set up data" leaves the buffer with as many zeros as there are bins,
    and uploads it as such. *)
Lemma setUpData_zeroes (w : World) :
  0 <= m_histogramBinCount (renderer w) ->
  let zeros := repeat 0 (Z.to_nat (m_histogramBinCount (renderer w))) in
  let w' := fst (execHistoConsolidate_setUpData w) in
  returns execHistoConsolidate_setUpData w /\
  m_histogramData (renderer w') = zeros /\
  In (glTexSubImage1D (m_histogramBinCount (renderer w)) zeros) (calls w').
Proof.
  intros Hpos.
  unfold returns, execHistoConsolidate_setUpData,
    bind, getR, when, modifyR, call, genName, ret.
  cbn.
  destruct (m_histogram (renderer w) =? GLuint_max); cbn;
    destruct (Z.eqb_spec (Z.of_nat (length (m_histogramData (renderer w))))
                (m_histogramBinCount (renderer w))) as [He | He];
    cbn; rewrite ?length_resize;
    try (replace (Z.to_nat (m_histogramBinCount (renderer w)))
           with (length (m_histogramData (renderer w))) by lia);
    (split; [now eexists|]); (split; [reflexivity|]);
    rewrite !in_app_iff; simpl; tauto.
Qed.

Lemma retrieveResults_length (env : Env) (w : World) :
  let w' := fst (execHistoConsolidate_retrieveResults env w) in
  returns (execHistoConsolidate_retrieveResults env) w /\
  length (m_histogramData (renderer w')) = length (m_histogramData (renderer w)).
Proof.
  unfold returns, execHistoConsolidate_retrieveResults,
    bind, getR, modifyR, call, ret; simpl.
  split; [now eexists|].
  now rewrite length_map, length_seq.
Qed.




(** ** execImageDraw on the observed part of the world *)

Lemma observe_call {X} (F : Renderer -> X) (sel : Call -> bool) (c : Call)
    (w : World) x log queue launched :
  observe F sel w = (x, log, queue, launched) ->
  observe F sel (set_calls (calls w ++ [c]) w) =
  (x, log ++ filter sel [c], queue, launched).
Proof.
  unfold observe. intros H. injection H as <- <- <- <-. simpl.
  now rewrite filter_app.
Qed.

Lemma observe_modifyR {X} (F : Renderer -> X) (sel : Call -> bool)
    (f : Renderer -> Renderer) (w : World) x x' log queue launched :
  observe F sel w = (x, log, queue, launched) ->
  F (f (renderer w)) = x' ->
  observe F sel (set_renderer (f (renderer w)) w) = (x', log, queue, launched).
Proof.
  unfold observe. intros H <-. now injection H as <- <- <- <-.
Qed.

Lemma bind_getR {A B} (member : Renderer -> A) (k : A -> M B) (w : World) :
  bind (getR member) k w = k (member (renderer w)) w.
Proof. reflexivity. Qed.

Lemma bind_call {B} (c : Call) (k : unit -> M B) (w : World) :
  bind (call c) k w = k tt (set_calls (calls w ++ [c]) w).
Proof. reflexivity. Qed.

Lemma bind_modifyR {B} (f : Renderer -> Renderer) (k : unit -> M B) (w : World) :
  bind (modifyR f) k w = k tt (set_renderer (f (renderer w)) w).
Proof. reflexivity. Qed.

Lemma bind_ret {A B} (a : A) (k : A -> M B) (w : World) :
  bind (ret a) k w = k a w.
Proof. reflexivity. Qed.

(** One frame step of a forward proof: the action at the head of the
    sequence keeps what is observed, so the proof goes on in the world it
    leaves, about which the same observation is known. *)
Lemma bind_frame {X A B} (F : Renderer -> X) (sel : Call -> bool)
    (m : M A) (k : A -> M B) (w : World) o (P : World * outcome B -> Prop) :
  preserves F sel m ->
  observe F sel w = o ->
  (forall a w', observe F sel w' = o -> P (k a w')) ->
  P (bind m k w).
Proof.
  intros Hm Hw Hk.
  destruct (Hm w) as [[a Ha] Hobs].
  rewrite (bind_returned m k w a Ha).
  apply Hk. congruence.
Qed.

Ltac frame_step :=
  rewrite ?bind_assoc;
  lazymatch goal with
  | Hobs : observe ?F ?sel ?w = ?o |- context [bind ?m ?k ?w] =>
      pattern (bind m k w);
      apply (bind_frame F sel m k w o _ ltac:(frame_tac) Hobs);
      clear dependent w; intros ? w Hobs; cbv beta
  end.


Lemma drawMembers_inv (w : World) cachedMin cachedMax cachedGamma imageData
    future imageExtrema log queue launched :
  observe drawMembers drawCalls w =
  (cachedMin, cachedMax, cachedGamma, imageData, future, imageExtrema, log,
   queue, launched) ->
  gtpMin (m_imageDrawProg (renderer w)) = cachedMin /\
  gtpMax (m_imageDrawProg (renderer w)) = cachedMax /\
  gtpGamma (m_imageDrawProg (renderer w)) = cachedGamma /\
  m_imageData (renderer w) = imageData /\
  m_imageExtremaFuture (renderer w) = future /\
  m_imageExtrema (renderer w) = imageExtrema.
Proof.
  unfold observe, drawMembers. intros H. injection H. intros. tauto.
Qed.

(** A step that reads a member: the value read is what the observation
    says. *)
Ltac read_step :=
  rewrite ?bind_assoc, bind_getR;
  lazymatch goal with
  | Hobs : observe drawMembers drawCalls ?w = _ |- _ =>
      let H := fresh in
      pose proof (drawMembers_inv w _ _ _ _ _ _ _ _ _ Hobs) as H;
      destruct H as (Hmin & Hmax & Hgamma & Hdata & Hfuture & Hextrema);
      rewrite ?Hmin, ?Hmax, ?Hgamma, ?Hdata, ?Hfuture, ?Hextrema;
      clear Hmin Hmax Hgamma Hdata Hfuture Hextrema
  end.

(** A step that makes an observed call. *)
Ltac call_step :=
  rewrite ?bind_assoc, bind_call;
  lazymatch goal with
  | Hobs : observe drawMembers drawCalls ?w = _
    |- context [set_calls (calls ?w ++ [?c]) ?w] =>
      apply (observe_call drawMembers drawCalls c) in Hobs;
      cbn [filter drawCalls] in Hobs;
      generalize dependent (set_calls (calls w ++ [c]) w);
      clear w; intros w Hobs
  end.

(** A step that assigns an observed member. *)
Ltac assign_step :=
  rewrite ?bind_assoc, bind_modifyR;
  lazymatch goal with
  | Hobs : observe drawMembers drawCalls ?w = _
    |- context [set_renderer (?f (renderer ?w)) ?w] =>
      let H := fresh in
      let Hnew := fresh in
      pose proof (drawMembers_inv w _ _ _ _ _ _ _ _ _ Hobs) as H;
      destruct H as (Hmin & Hmax & Hgamma & Hdata & Hfuture & Hextrema);
      let x' := eval cbv beta delta [drawMembers] in
                  (drawMembers (f (renderer w))) in
      let x' := eval cbn in x' in
      assert (Hnew : drawMembers (f (renderer w)) = x') by reflexivity;
      rewrite ?Hmin, ?Hmax, ?Hgamma, ?Hdata, ?Hfuture, ?Hextrema in Hnew;
      apply (observe_modifyR drawMembers drawCalls f w _ _ _ _ _ Hobs) in Hnew;
      clear Hmin Hmax Hgamma Hdata Hfuture Hextrema Hobs;
      generalize dependent (set_renderer (f (renderer w)) w);
      clear w; intros w Hobs
  end.

(** A conditional upload: the call and the assignment to the cache, or
    nothing. *)
Ltac upload_step :=
  rewrite ?bind_assoc;
  lazymatch goal with
  | |- context [bind (when ?c ?body) ?k ?w] =>
      destruct c; cbn [when];
      [call_step; assign_step | rewrite ?bind_assoc, bind_ret]
  end.

(** The last call of a function. *)
Ltac last_call_step :=
  lazymatch goal with
  | Hobs : observe drawMembers drawCalls ?w = _ |- context [call ?c ?w] =>
      apply (observe_call drawMembers drawCalls c) in Hobs;
      cbn [filter drawCalls] in Hobs;
      unfold call; cbn [fst snd];
      split; [now exists tt|];
      rewrite Hobs; rewrite ?app_nil_r, <- ?app_assoc; reflexivity
  end.

(** A draw returns, and what is observed of the world after it is what
    [execImageDraw_observed] computes from what was observed before: by
    forward steps through the function. *)
Lemma execImageDraw_observed_correct (env : Env) (w : World) :
  returns (execImageDraw env) w /\
  observe drawMembers drawCalls (fst (execImageDraw env w)) =
  execImageDraw_observed env (observe drawMembers drawCalls w).
Proof.
  remember (observe drawMembers drawCalls w) as o eqn:Hobs. symmetry in Hobs.
  destruct o as [[[[[[[[cachedMin cachedMax] cachedGamma] imageData] future]
                       imageExtrema] log] queue] launched].
  unfold returns, execImageDraw.
  do 6 frame_step.
  read_step.
  destruct imageData as [|p l]; cbn [empty negb when].
  { rewrite bind_ret. last_call_step. }
  cbv zeta.
  frame_step.
  unfold execImageDraw_observed, rangeOfDraw, futureAfterDraw,
    extremaAfterDraw, consultedByDraw, integerUpload, gammaUpload.
  cbn [empty].
  rewrite ?bind_assoc.
  destruct (m_gtpAutoMinMaxEnabled (histogramWidget env));
    [read_step;
     destruct future as [f|];
     [call_step; assign_step; assign_step; frame_step
     |rewrite ?bind_assoc, bind_ret];
     read_step
    |rewrite ?bind_assoc, bind_ret].
  all: cbn [fst snd].
  all: do 3 frame_step.
  all: read_step; upload_step.
  all: read_step; upload_step.
  all: read_step; upload_step.
  all: do 5 frame_step.
  all: last_call_step.
Qed.

(** ** The uniform cache of execImageDraw *)

Lemma uploadsOf_app (pick : Call -> list FloatArg) (cs cs' : list Call) :
  uploadsOf pick (cs ++ cs') = uploadsOf pick cs ++ uploadsOf pick cs'.
Proof. apply flat_map_app. Qed.

Lemma uploadsOf_filter (pick : Call -> list FloatArg) (sel : Call -> bool)
    (cs : list Call) :
  (forall c, sel c = false -> pick c = []) ->
  uploadsOf pick (filter sel cs) = uploadsOf pick cs.
Proof.
  intros Hsel. unfold uploadsOf.
  induction cs as [|c cs IH]; [reflexivity|]. simpl.
  destruct (sel c) eqn:Hc; simpl; [now rewrite IH|].
  now rewrite (Hsel c Hc), IH.
Qed.

Lemma gammaUploads_drawCalls (cs : list Call) :
  gammaUploads (filter drawCalls cs) = gammaUploads cs.
Proof.
  apply uploadsOf_filter.
  intros c Hc. destruct c; try reflexivity.
  destruct loc as [[] name]; simpl in *; congruence || reflexivity.
Qed.

Lemma minUploads_drawCalls (cs : list Call) :
  minUploads (filter drawCalls cs) = minUploads cs.
Proof.
  apply uploadsOf_filter.
  intros c Hc. destruct c; try reflexivity.
  destruct loc as [[] name]; simpl in *; congruence || reflexivity.
Qed.

Lemma maxUploads_drawCalls (cs : list Call) :
  maxUploads (filter drawCalls cs) = maxUploads cs.
Proof.
  apply uploadsOf_filter.
  intros c Hc. destruct c; try reflexivity.
  destruct loc as [[] name]; simpl in *; congruence || reflexivity.
Qed.

(** The summary of a draw, member by member. *)
Lemma execImageDraw_members (env : Env) (w : World) :
  let w' := fst (execImageDraw env w) in
  let r := renderer w in
  let o' := execImageDraw_observed env
              (drawMembers r, filter drawCalls (calls w), eventQueue w,
               asyncLaunched w) in
  drawMembers (renderer w') = fst (fst (fst o')) /\
  filter drawCalls (calls w') = snd (fst (fst o')) /\
  eventQueue w' = eventQueue w /\
  asyncLaunched w' = asyncLaunched w.
Proof.
  intros w' r o'.
  destruct (execImageDraw_observed_correct env w) as [_ Hobs].
  fold w' in Hobs. unfold observe at 2 in Hobs. fold r o' in Hobs.
  unfold observe in Hobs.
  assert (Hq : snd (fst o') = eventQueue w /\ snd o' = asyncLaunched w).
  { subst o'. unfold execImageDraw_observed, drawMembers.
    destruct (empty (m_imageData r)); split; reflexivity. }
  destruct Hq as [Hq Hl].
  rewrite <- Hobs. simpl. rewrite <- Hobs in Hq, Hl. simpl in Hq, Hl. auto.
Qed.

(** What one draw does to the three cached uniforms and their uploads. *)
Lemma execImageDraw_effect (env : Env) (w : World) :
  let w' := fst (execImageDraw env w) in
  let prog := m_imageDrawProg (renderer w) in
  let prog' := m_imageDrawProg (renderer w') in
  let gamma := m_gtpGamma (histogramWidget env) in
  let range := rangeOfDraw env (m_imageExtremaFuture (renderer w))
                 (m_imageExtrema (renderer w)) in
  m_imageData (renderer w') = m_imageData (renderer w) /\
  (m_imageData (renderer w) = [] ->
   (gtpGamma prog' = gtpGamma prog /\
    gammaUploads (calls w') = gammaUploads (calls w)) /\
   (gtpMin prog' = gtpMin prog /\
    minUploads (calls w') = minUploads (calls w)) /\
   (gtpMax prog' = gtpMax prog /\
    maxUploads (calls w') = maxUploads (calls w))) /\
  (m_imageData (renderer w) <> [] ->
   (gtpGamma prog' =
      (if IEEE32.ne gamma (gtpGamma prog) then gamma else gtpGamma prog) /\
    gammaUploads (calls w') =
      gammaUploads (calls w) ++
      (if IEEE32.ne gamma (gtpGamma prog) then [float_value gamma] else [])) /\
   (gtpMin prog' =
      (if negb (fst range =? gtpMin prog) then fst range else gtpMin prog) /\
    minUploads (calls w') =
      minUploads (calls w) ++
      (if negb (fst range =? gtpMin prog) then [float_of_integer (fst range)]
       else [])) /\
   (gtpMax prog' =
      (if negb (snd range =? gtpMax prog) then snd range else gtpMax prog) /\
    maxUploads (calls w') =
      maxUploads (calls w) ++
      (if negb (snd range =? gtpMax prog) then [float_of_integer (snd range)]
       else []))).
Proof.
  intros w' prog prog' gamma range.
  destruct (execImageDraw_members env w) as (Hm & Hc & _ & _).
  fold w' in Hm, Hc. clearbody w'.
  rewrite <- (gammaUploads_drawCalls (calls w')),
    <- (minUploads_drawCalls (calls w')),
    <- (maxUploads_drawCalls (calls w')), Hc.
  rewrite <- (gammaUploads_drawCalls (calls w)),
    <- (minUploads_drawCalls (calls w)),
    <- (maxUploads_drawCalls (calls w)).
  clear Hc.
  unfold execImageDraw_observed, drawMembers in *.
  destruct (m_imageData (renderer w)) as [|p l] eqn:Hdata; cbn [empty] in *.
  - simpl in Hm. injection Hm as Hmin Hmax Hgamma Hd _ _.
    fold prog' in Hmin, Hmax, Hgamma. fold prog.
    split; [exact Hd|]. split; [|congruence].
    intros _. simpl. auto.
  - cbn [fst snd] in Hm.
    pose proof (f_equal (fun t => fst (fst (fst (fst (fst t))))) Hm) as Hmin.
    pose proof (f_equal (fun t => snd (fst (fst (fst (fst t))))) Hm) as Hmax.
    pose proof (f_equal (fun t => snd (fst (fst (fst t)))) Hm) as Hgamma.
    pose proof (f_equal (fun t => snd (fst (fst t))) Hm) as Hd.
    cbn [fst snd] in Hmin, Hmax, Hgamma, Hd. clear Hm.
    fold prog' in Hmin, Hmax, Hgamma.
    fold prog gamma range in Hmin, Hmax, Hgamma.
    fold prog gamma range.
    split; [exact Hd|]. split; [congruence|].
    intros _. cbn [fst snd].
    unfold gammaUploads, minUploads, maxUploads.
    rewrite !uploadsOf_app.
    unfold consultedByDraw, integerUpload, gammaUpload.
    clearbody range prog' prog gamma.
    split; [split; [exact Hgamma|] | split; (split; [assumption|])].
    all: f_equal.
    all: destruct (m_gtpAutoMinMaxEnabled (histogramWidget env));
      destruct (m_imageExtremaFuture (renderer w));
      destruct (negb (fst range =? gtpMin prog));
      destruct (negb (snd range =? gtpMax prog));
      destruct (IEEE32.ne gamma (gtpGamma prog)); reflexivity.
Qed.

(** A value that is equal to itself is not uploaded again once cached. *)
Lemma ne_after_caching (gamma cached : GLfloat) :
  IEEE32.eq gamma gamma = true ->
  IEEE32.ne gamma (if IEEE32.ne gamma cached then gamma else cached) = false.
Proof.
  intros Hself.
  destruct (IEEE32.ne gamma cached) eqn:Hne; [|exact Hne].
  unfold IEEE32.ne. now rewrite Hself.
Qed.




(** ** The extrema future over the life of a renderer *)

Lemma consulted_app (cs cs' : list Call) :
  consulted (cs ++ cs') = consulted cs ++ consulted cs'.
Proof. apply flat_map_app. Qed.

Lemma consulted_filter (sel : Call -> bool) (cs : list Call) :
  (forall f, sel (future_get f) = true) ->
  consulted (filter sel cs) = consulted cs.
Proof.
  intros Hsel. induction cs as [|c cs IH]; [reflexivity|]. simpl.
  destruct c; simpl; try (destruct (sel _); simpl; exact IH).
  rewrite Hsel. simpl. now rewrite IH.
Qed.

Local Notation "'keeps_extrema' m" :=
  (preserves extremaMembers is_future_get m) (at level 10, m at level 9).

Lemma delImage_keeps_extrema : keeps_extrema delImage.
Proof. unfold delImage. frame_tac. Qed.

Lemma delHistogramBlocks_keeps_extrema : keeps_extrema delHistogramBlocks.
Proof. unfold delHistogramBlocks. frame_tac. Qed.

Lemma delHistogram_keeps_extrema : keeps_extrema delHistogram.
Proof. unfold delHistogram. frame_tac. Qed.

Lemma execHistoCalc_keeps_extrema : keeps_extrema execHistoCalc.
Proof. unfold execHistoCalc. frame_tac. Qed.

Lemma execHistoConsolidate_keeps_extrema env :
  keeps_extrema (execHistoConsolidate env).
Proof.
  unfold execHistoConsolidate, execHistoConsolidate_setUpData,
    execHistoConsolidate_execute, execHistoConsolidate_retrieveResults.
  frame_tac.
Qed.

Lemma execHistoDraw_keeps_extrema env : keeps_extrema (execHistoDraw env).
Proof. unfold execHistoDraw. frame_tac. Qed.

#[local] Hint Resolve delImage_keeps_extrema delHistogramBlocks_keeps_extrema
  delHistogram_keeps_extrema execHistoCalc_keeps_extrema
  execHistoConsolidate_keeps_extrema execHistoDraw_keeps_extrema : frames.

Lemma setHistogramBinCountSlot_keeps_extrema histogramBinCount env :
  keeps_extrema (setHistogramBinCountSlot histogramBinCount env).
Proof.
  unfold setHistogramBinCountSlot, setHistogramBinCountSlot_discard,
    setHistogramBinCountSlot_recompute.
  frame_tac.
Qed.

Lemma newImageSlot_tearDown_keeps_extrema imageData imageSize :
  keeps_extrema (newImageSlot_tearDown imageData imageSize).
Proof. unfold newImageSlot_tearDown. frame_tac. Qed.

Lemma newImageSlot_load_keeps_extrema imageData imageSize filter env :
  keeps_extrema (newImageSlot_load imageData imageSize filter env).
Proof. unfold newImageSlot_load. frame_tac. Qed.

Lemma future_step_refl (w : World) : future_step w w.
Proof. split; [reflexivity|]. left. auto. Qed.

Lemma kept_extrema {A} (m : M A) (w : World) :
  keeps_extrema m ->
  returns m w /\ same_extrema w (fst (m w)).
Proof.
  intros Hm. destruct (Hm w) as [Hret Hobs]. split; [exact Hret|].
  destruct (observe_eq _ _ _ _ Hobs) as (Hf & Hc & _ & Hl).
  unfold extremaMembers in Hf. injection Hf as Hfut Hext.
  unfold same_extrema.
  rewrite <- (consulted_filter is_future_get (calls (fst (m w)))),
    <- (consulted_filter is_future_get (calls w)), Hc by reflexivity.
  auto.
Qed.

Lemma future_step_before (w w1 w2 : World) :
  same_extrema w w1 -> future_step w1 w2 -> future_step w w2.
Proof.
  unfold same_extrema, future_step.
  intros (Hl & Hc & He & Hf) (Hl' & Hstep).
  rewrite Hl, Hc, He, Hf in *. auto.
Qed.

Lemma future_step_after (w w1 w2 : World) :
  future_step w w1 -> same_extrema w1 w2 -> future_step w w2.
Proof.
  unfold same_extrema, future_step.
  intros (Hl' & Hstep) (Hl & Hc & He & Hf).
  rewrite Hl, Hc, He, Hf in *. auto.
Qed.

(** A draw of the image view is such a step. *)
Lemma execImageDraw_future_step (env : Env) (w : World) :
  future_step w (fst (execImageDraw env w)).
Proof.
  destruct (execImageDraw_members env w) as (Hm & Hc & _ & Hl).
  set (w' := fst (execImageDraw env w)) in *. clearbody w'.
  split; [exact Hl|].
  rewrite <- (consulted_filter drawCalls (calls w')),
    <- (consulted_filter drawCalls (calls w)), Hc by reflexivity.
  clear Hc Hl.
  unfold execImageDraw_observed, drawMembers in *.
  destruct (m_imageData (renderer w)) as [|p l]; cbn [empty fst snd] in *.
  - injection Hm as _ _ _ _ Hf He. left. auto.
  - pose proof (f_equal (fun t => snd (fst t)) Hm) as Hf.
    pose proof (f_equal snd Hm) as He.
    cbn [fst snd] in Hf, He. clear Hm.
    rewrite !consulted_app.
    unfold futureAfterDraw, extremaAfterDraw in *.
    unfold consultedByDraw, integerUpload, gammaUpload.
    destruct (m_gtpAutoMinMaxEnabled (histogramWidget env)).
    + destruct (m_imageExtremaFuture (renderer w)) as [f|].
      * right. exists f.
        repeat split; try assumption.
        destruct (negb _), (negb _), (IEEE32.ne _ _); reflexivity.
      * left. repeat split; try assumption; [|now right].
        destruct (negb _), (negb _), (IEEE32.ne _ _); simpl;
          now rewrite app_nil_r.
    + left. repeat split; try assumption; [|now left].
      destruct (negb _), (negb _), (IEEE32.ne _ _); simpl;
        now rewrite app_nil_r.
Qed.

Lemma future_step_bind_frame {A B} (m : M A) (k : A -> M B) (w : World) :
  keeps_extrema m ->
  (forall a w1, future_step w1 (fst (k a w1))) ->
  future_step w (fst (bind m k w)).
Proof.
  intros Hm Hk.
  destruct (kept_extrema m w Hm) as [[a Ha] Hsame].
  rewrite (bind_returned m k w a Ha).
  exact (future_step_before _ _ _ Hsame (Hk a _)).
Qed.

Lemma future_step_draw_bind {B} (env : Env) (k : unit -> M B) (w : World) :
  (forall a, keeps_extrema (k a)) ->
  future_step w (fst (bind (execImageDraw env) k w)).
Proof.
  intros Hk.
  destruct (execImageDraw_observed_correct env w) as [Hret _].
  rewrite (bind_returns _ _ w Hret).
  destruct (kept_extrema (k tt) (fst (execImageDraw env w)) (Hk tt))
    as [_ Hsame].
  exact (future_step_after _ _ _ (execImageDraw_future_step env w) Hsame).
Qed.

Lemma future_step_frame {A} (m : M A) (w : World) :
  keeps_extrema m -> future_step w (fst (m w)).
Proof.
  intros Hm. destruct (kept_extrema m w Hm) as [_ Hsame].
  exact (future_step_before _ _ _ Hsame (future_step_refl _)).
Qed.

(** Every slot is a step of the extrema computation. *)
Lemma slot_future_step (m : Message) (env : Env) (w : World) :
  future_step w (fst (slot m env w)).
Proof.
  destruct m as [view | imageData imageSize filter | histogramBinCount]; simpl.
  - destruct view as [| |address]; unfold updateViewSlot.
    + rewrite bind_getR.
      destruct (m_imageViewUpdatePending (renderer w)); cbn [when];
        [|apply future_step_refl].
      apply future_step_bind_frame; [frame_tac|].
      intros _ w1. apply execImageDraw_future_step.
    + apply future_step_frame. frame_tac.
    + apply future_step_refl.
  - unfold newImageSlot.
    apply future_step_bind_frame; [frame_tac|]. intros _ w1.
    apply future_step_bind_frame;
      [apply newImageSlot_tearDown_keeps_extrema|]. intros _ w2.
    apply future_step_bind_frame;
      [apply newImageSlot_load_keeps_extrema|]. intros _ w3.
    apply future_step_draw_bind. intros _. frame_tac.
  - apply future_step_frame, setHistogramBinCountSlot_keeps_extrema.
Qed.

Lemma deliver_future_step (env : Env) (w : World) :
  future_step w (fst (deliver env w)).
Proof.
  unfold deliver.
  destruct (eventQueue w) as [|m rest]; [apply future_step_refl|].
  exact (slot_future_step m env (set_eventQueue rest w)).
Qed.

Lemma launched_since_later (n : nat) (events : list Event) (e : Event)
    (f : Future) :
  launched_since n events f -> launched_since n (events ++ [e]) f.
Proof.
  intros (Hn & imageSize & filter & Hin).
  split; [exact Hn|]. exists imageSize, filter.
  apply in_or_app. now left.
Qed.

Lemma updateView_same_extrema (view : View) (w : World) :
  same_extrema w (fst (updateView view w)).
Proof.
  destruct (updateView_effect view w) as [-> | (p & _ & _ & _ & ->)];
    unfold same_extrema; [auto|].
  destruct p; simpl; auto.
Qed.

Lemma threadInitSlot_same_extrema (init : InitEnv) (w : World) :
  same_extrema w (fst (threadInitSlot init w)).
Proof.
  unfold threadInitSlot, makeContexts, makeGlfs, buildGlProgs,
    bind, getR, when, modifyR, call, throw, ret, same_extrema.
  destruct (m_threadInited (renderer w)); simpl; [auto|].
  destruct (imageContextCreated init); simpl; [|auto].
  destruct (histogramContextCreated init); simpl; [|auto].
  destruct (functionsRetrieved init); simpl;
    [|rewrite consulted_app; simpl; rewrite app_nil_r; auto].
  destruct (functionsInitialized init); simpl;
    rewrite ?consulted_app; simpl; rewrite ?app_nil_r; auto.
Qed.

(** The events keep the invariant of the extrema computation. *)
Lemma extrema_since_step (w0 : World) (events : list Event) (w : World)
    (e : Event) :
  extrema_since w0 events w ->
  extrema_since w0 (events ++ [e]) (step w e).
Proof.
  intros (Hl & Hfuture & new & Hc & Hnew & He).
  assert (Hnew' : Forall (launched_since (asyncLaunched w0) (events ++ [e])) new).
  { eapply Forall_impl; [|exact Hnew].
    intros f. apply launched_since_later. }
  assert (Hsame : forall w',
             same_extrema w w' -> extrema_since w0 (events ++ [e]) w').
  { intros w' (Hl' & Hc' & He' & Hf').
    split; [lia|]. split.
    - intros f Hf. rewrite Hf' in Hf.
      apply launched_since_later. now apply Hfuture.
    - exists new. rewrite Hc', He'. auto. }
  unfold step.
  destruct e as [view | imageData imageSize filter | histogramBinCount
                | init | env]; simpl.
  - apply Hsame, updateView_same_extrema.
  - unfold showImage, bind, when, std_async, modifyR, emit, throw, ret.
    destruct imageData as [|p l]; simpl.
    + split; [exact Hl|]. split; [discriminate|].
      exists new. auto.
    + destruct ((width imageSize <=? 0) || (height imageSize <=? 0)); simpl.
      * apply Hsame. unfold same_extrema. auto.
      * unfold extrema_since. simpl. split; [lia|]. split.
        -- intros f Hf. injection Hf as <-.
           split; [simpl; lia|].
           exists imageSize, filter. apply in_or_app. right. now left.
        -- exists new. auto.
  - apply Hsame. unfold same_extrema. simpl. auto.
  - apply Hsame, threadInitSlot_same_extrema.
  - destruct (deliver_future_step env w)
      as (Hl' & [(Hc' & He' & Hf') | (f & Hf & Hf' & Hc' & He')]).
    + split; [lia|]. split.
      * intros f Hfut. apply launched_since_later, Hfuture.
        destruct Hf' as [Hf' | Hf']; rewrite Hf' in Hfut;
          [exact Hfut | discriminate].
      * exists new. rewrite Hc', He'. auto.
    + split; [lia|]. split.
      * intros g Hg. rewrite Hf' in Hg. discriminate.
      * exists (new ++ [f]).
        split; [rewrite Hc', Hc; symmetry; apply app_assoc|].
        split.
        -- apply Forall_app. split; [exact Hnew'|].
           constructor; [|constructor].
           apply launched_since_later. now apply Hfuture.
        -- rewrite He', map_app. simpl. symmetry. apply last_last.
Qed.

Lemma extrema_since_run (w0 : World) (events : list Event) :
  m_imageExtremaFuture (renderer w0) = None ->
  extrema_since w0 events (run events w0).
Proof.
  intros Hnone.
  induction events as [|e events IH] using rev_ind.
  - split; [reflexivity|]. split.
    + simpl. intros f Hf. congruence.
    + exists []. rewrite app_nil_r. simpl. auto.
  - unfold run. rewrite fold_left_app. simpl.
    now apply extrema_since_step.
Qed.


